(** * Custom enumeration data types and a data-source variable node

    A shallow embedding of [examples/tutorial_server_enumerationtype.c]:
    the file-scope state ([FreeNodeId], [DataTypes], [UsedDataTypes], the
    static counter of [readValue]), the five node-creating functions, the
    read and write callbacks of the data source, and [main] up to the point
    where the server starts serving.

    The server library the example is linked against is an interface
    ([ServerAPI]); the functions of the example are written against it, and
    the properties of the example hold for every implementation of the
    interface. [AddressSpace] is one implementation, a model of the address
    space written from the specification, on which [main] can be run. *)

From Stdlib Require Import ZArith String Ascii List DecimalString Lia.
From Stdlib Require DecimalFacts DecimalPos.
From stdpp Require Import base list.

Local Open Scope Z_scope.

(** ** Machine integers *)

Definition wrap_uint16 (z : Z) : Z := z mod 2 ^ 16.
Definition wrap_uint32 (z : Z) : Z := z mod 2 ^ 32.

(** Conversion to a signed type of [w] bits, two's complement. *)
Definition wrap_signed (w : Z) (z : Z) : Z :=
  (z + 2 ^ (w - 1)) mod 2 ^ w - 2 ^ (w - 1).

Definition wrap_int16 (z : Z) : Z := wrap_signed 16 z.
Definition wrap_int32 (z : Z) : Z := wrap_signed 32 z.

(** [#define ENUMVALUES_LEN 5] *)
Definition ENUMVALUES_LEN : Z := 5.

(** ** Status codes *)

Definition UA_StatusCode := Z.

Definition UA_STATUSCODE_GOOD : UA_StatusCode := 0x00000000.
Definition UA_STATUSCODE_BADOUTOFMEMORY : UA_StatusCode := 0x80030000.
Definition UA_STATUSCODE_BADNOTFOUND : UA_StatusCode := 0x803E0000.

(** The severity of a status code is held by its two top bits; a code is bad
    when they are [10] or [11]. *)
Definition UA_StatusCode_isBad (code : UA_StatusCode) : bool :=
  2 <=? Z.shiftr code 30.

(** ** Identifiers and names *)

(** A numeric node identifier, [UA_NODEID_NUMERIC(nsIndex, identifier)]. *)
Record UA_NodeId := mkNodeId {
  namespaceIndex : Z;   (* UA_UInt16 *)
  identifier : Z        (* UA_UInt32 *)
}.

(** The macro's parameters are a [UA_UInt16] and a [UA_UInt32]: arguments of
    another integer type are converted at the call. *)
Definition UA_NODEID_NUMERIC (nsIndex : Z) (id : Z) : UA_NodeId :=
  mkNodeId (wrap_uint16 nsIndex) (wrap_uint32 id).

Definition UA_NodeId_equal (a b : UA_NodeId) : bool :=
  (namespaceIndex a =? namespaceIndex b) && (identifier a =? identifier b).

Definition UA_NODEID_NULL : UA_NodeId := mkNodeId 0 0.

Record UA_QualifiedName := mkQualifiedName {
  qnNamespaceIndex : Z;
  qnName : string
}.

Definition UA_QUALIFIEDNAME (nsIndex : Z) (chars : string) : UA_QualifiedName :=
  mkQualifiedName (wrap_uint16 nsIndex) chars.

Record UA_LocalizedText := mkLocalizedText {
  locale : string;
  text : string
}.

Definition UA_LOCALIZEDTEXT (loc txt : string) : UA_LocalizedText :=
  mkLocalizedText loc txt.

(** [UA_LOCALIZEDTEXT_ALLOC] copies both strings to the heap; the copy holds
    the same characters. *)
Definition UA_LOCALIZEDTEXT_ALLOC (loc txt : string) : UA_LocalizedText :=
  mkLocalizedText loc txt.

(** Node identifiers of namespace 0 used by the example ([nodeids.h]). *)
Definition UA_NS0ID_INT32 : Z := 6.
Definition UA_NS0ID_LOCALIZEDTEXT : Z := 21.
Definition UA_NS0ID_BASEDATATYPE : Z := 24.
Definition UA_NS0ID_ENUMERATION : Z := 29.
Definition UA_NS0ID_ORGANIZES : Z := 35.
Definition UA_NS0ID_HASSUBTYPE : Z := 45.
Definition UA_NS0ID_HASPROPERTY : Z := 46.
Definition UA_NS0ID_FOLDERTYPE : Z := 61.
Definition UA_NS0ID_BASEDATAVARIABLETYPE : Z := 63.
Definition UA_NS0ID_PROPERTYTYPE : Z := 68.
Definition UA_NS0ID_OBJECTSFOLDER : Z := 85.
Definition UA_NS0ID_ENUMVALUETYPE : Z := 7594.

(** ** Data types and values *)

Inductive UA_DataTypeKind :=
| UA_DATATYPEKIND_INT32
| UA_DATATYPEKIND_LOCALIZEDTEXT
| UA_DATATYPEKIND_ENUM
| UA_DATATYPEKIND_STRUCTURE
| UA_DATATYPEKIND_OTHER (k : Z).

(** [UA_DataType]: the descriptor of one data type. [typeName] is a
    [char *]; [None] is the null pointer of a zero-initialised descriptor. *)
Record UA_DataType := mkDataType {
  typeName : option string;
  typeId : UA_NodeId;
  binaryEncodingId : UA_NodeId;
  memSize : Z;
  typeKind : UA_DataTypeKind;
  pointerFree : bool;
  overlayable : bool;
  membersSize : Z
}.

(** The value [{0}] of a [UA_DataType]. *)
Definition UA_DataType_zero : UA_DataType :=
  mkDataType None UA_NODEID_NULL UA_NODEID_NULL 0 (UA_DATATYPEKIND_OTHER 0)
             false false 0.

(** Indexes into the table [UA_TYPES] used by the example. *)
Inductive UA_TypesIndex :=
| UA_TYPES_INT32
| UA_TYPES_LOCALIZEDTEXT
| UA_TYPES_ENUMVALUETYPE
| UA_TYPES_ENUMERATION.

Record UA_EnumValueType := mkEnumValueType {
  ev_value : Z;                      (* UA_Int64 *)
  ev_displayName : UA_LocalizedText;
  ev_description : UA_LocalizedText
}.

Inductive Value :=
| VInt32 (z : Z)
| VEnumValue (e : UA_EnumValueType)
| VLocalizedText (t : UA_LocalizedText).

(** The payload of a [UA_Variant]: nothing, one value, or an array. *)
Inductive VariantData :=
| VEmpty
| VScalar (v : Value)
| VArray (vs : list Value).

Record UA_Variant := mkVariant {
  vtype : option UA_TypesIndex;   (* const UA_DataType *type *)
  vdata : VariantData
}.

(** [UA_Variant_init] *)
Definition UA_Variant_empty : UA_Variant := mkVariant None VEmpty.

(** [UA_Variant_setArray(v, array, arraySize, type)]: the variant points to
    the first [arraySize] elements of [array]. *)
Definition UA_Variant_setArray (array : list Value) (arraySize : Z)
    (ty : UA_TypesIndex) : UA_Variant :=
  mkVariant (Some ty) (VArray (take (Z.to_nat arraySize) array)).

(** [UA_Variant_setScalarCopy(v, p, type)] allocates room for one value of
    [type] and copies [*p] into it. The function is part of the server
    library; [heap] tells whether the allocation succeeds. When it does not,
    the variant is left as it was. *)
Definition UA_Variant_setScalarCopy (heap : bool) (v : UA_Variant) (p : Value)
    (ty : UA_TypesIndex) : UA_StatusCode * UA_Variant :=
  if heap then (UA_STATUSCODE_GOOD, mkVariant (Some ty) (VScalar p))
  else (UA_STATUSCODE_BADOUTOFMEMORY, v).

Record UA_DataValue := mkDataValue {
  dv_value : UA_Variant;
  dv_sourceTimestamp : Z;        (* UA_DateTime *)
  dv_hasValue : bool;
  dv_hasSourceTimestamp : bool
}.

Record UA_NumericRange := mkNumericRange {
  dimensions : list (Z * Z)
}.

(** ** Node attributes *)

Definition UA_ACCESSLEVELMASK_READ : Z := 0x01.
Definition UA_ACCESSLEVELMASK_WRITE : Z := 0x02.

Definition UA_VALUERANK_SCALAR : Z := -1.
Definition UA_VALUERANK_ONE_DIMENSION : Z := 1.

Record UA_VariableAttributes := mkVariableAttributes {
  va_displayName : UA_LocalizedText;
  va_value : UA_Variant;
  va_dataType : UA_NodeId;
  va_valueRank : Z;
  va_arrayDimensions : list Z;   (* arrayDimensionsSize is its length *)
  va_accessLevel : Z;
  va_userAccessLevel : Z
}.

Record UA_ObjectAttributes := mkObjectAttributes {
  oa_displayName : UA_LocalizedText
}.

Record UA_DataTypeAttributes := mkDataTypeAttributes {
  da_displayName : UA_LocalizedText;
  da_isAbstract : bool
}.

(** The two callbacks of a [UA_DataSource] are function pointers; the
    example has one function for each. *)
Inductive ReadCallback := fn_readValue.
Inductive WriteCallback := fn_writeValue.

Record UA_DataSource := mkDataSource {
  ds_read : ReadCallback;
  ds_write : WriteCallback
}.

(** [config->customDataTypes] is a pointer to a [UA_DataTypeArray]; the only
    such object of the example is the file-scope [DataTypeArray]. *)
Inductive DataTypeArrayPtr :=
| addr_DataTypeArray
| addr_other (a : Z).

(** ** The arguments of the callbacks *)

(** A [void *] or a [UA_Server *] the callbacks receive and never follow. *)
Definition pointer := Z.

(** What a call of [readValue] receives. [heap] and [now] are not arguments
    of the C function: they are what the call finds in its environment, the
    outcome of the allocation in [UA_Variant_setScalarCopy] and the value of
    [UA_DateTime_now()]. [r_dataValue] is the object [dataValue] points to,
    [None] for a null pointer. *)
Record ReadArgs := mkReadArgs {
  r_heap : bool;
  r_now : Z;
  r_server : pointer;
  r_sessionId : option UA_NodeId;
  r_sessionContext : pointer;
  r_nodeId : option UA_NodeId;
  r_nodeContext : pointer;
  r_sourceTimeStamp : bool;
  r_range : option UA_NumericRange;
  r_dataValue : option UA_DataValue
}.

Record WriteArgs := mkWriteArgs {
  w_server : pointer;
  w_sessionId : option UA_NodeId;
  w_sessionContext : pointer;
  w_nodeId : option UA_NodeId;
  w_nodeContext : pointer;
  w_range : option UA_NumericRange;
  w_dataValue : option UA_DataValue
}.

(** ** The server library *)

Record UA_ServerConfig := mkServerConfig {
  customDataTypes : option DataTypeArrayPtr
}.

(** A server: its configuration, which the example reads and writes through
    [UA_Server_getConfig], and the library's own state [Space]. *)
Record UA_Server (Space : Type) := mkServer {
  config : UA_ServerConfig;
  space : Space
}.
Arguments mkServer {Space}.
Arguments config {Space}.
Arguments space {Space}.

(** The part of the library the example calls. The example only looks at the
    status code of a call, so every function is a state transformer of the
    server that returns one. The tables and default attribute values of the
    library are part of the interface as well. *)
Class ServerAPI (Space : Type) := {
  UA_TYPES : UA_TypesIndex -> UA_DataType;
  UA_VariableAttributes_default : UA_VariableAttributes;
  UA_ObjectAttributes_default : UA_ObjectAttributes;
  UA_DataTypeAttributes_default : UA_DataTypeAttributes;
  (** [UA_Server_new] followed by [UA_ServerConfig_setDefault]; [None] is
      the null pointer *)
  UA_Server_new : option (UA_Server Space);
  UA_Server_addNamespace : UA_Server Space -> string -> Z * UA_Server Space;
  (** requested id, parent, reference type, browse name, attributes *)
  UA_Server_addDataTypeNode :
    UA_Server Space -> UA_NodeId -> UA_NodeId -> UA_NodeId ->
    UA_QualifiedName -> UA_DataTypeAttributes ->
    UA_StatusCode * UA_Server Space;
  (** requested id, parent, reference type, browse name, type definition,
      attributes *)
  UA_Server_addVariableNode :
    UA_Server Space -> UA_NodeId -> UA_NodeId -> UA_NodeId ->
    UA_QualifiedName -> UA_NodeId -> UA_VariableAttributes ->
    UA_StatusCode * UA_Server Space;
  UA_Server_addObjectNode :
    UA_Server Space -> UA_NodeId -> UA_NodeId -> UA_NodeId ->
    UA_QualifiedName -> UA_NodeId -> UA_ObjectAttributes ->
    UA_StatusCode * UA_Server Space;
  (** as [UA_Server_addVariableNode], and the data source; the library may
      call the read callback of the data source while it adds the node: the
      calls it makes are the third component of the result *)
  UA_Server_addDataSourceVariableNode :
    UA_Server Space -> UA_NodeId -> UA_NodeId -> UA_NodeId ->
    UA_QualifiedName -> UA_NodeId -> UA_VariableAttributes -> UA_DataSource ->
    UA_StatusCode * UA_Server Space * list ReadArgs
}.

(** ** C strings *)

Definition NUL : ascii := Ascii.zero.

(** [char a[] = "..."]: the characters and the terminator. *)
Definition char_array (s : string) : list ascii :=
  list_ascii_of_string s ++ [NUL].

(** The string a [char *] denotes: the characters before the first NUL. *)
Fixpoint cstring (buf : list ascii) : string :=
  match buf with
  | [] => EmptyString
  | c :: rest => if Ascii.eqb c NUL then EmptyString else String c (cstring rest)
  end.

(** The characters ["%d"] prints for an integer. *)
Definition decimal (d : Z) : string := NilZero.string_of_int (Z.to_int d).

(** [snprintf(buf + off, size, "%d", d)] on the array [buf]: at most
    [size - 1] characters of the decimal form of [d], then NUL. [None] when
    the bytes written do not fit in what is left of the array. *)
Definition snprintf_d (buf : list ascii) (off size : nat) (d : Z)
    : option (list ascii) :=
  let digits := list_ascii_of_string (decimal d) in
  let out := take (size - 1)%nat digits ++ [NUL] in
  if (size =? 0)%nat then Some buf
  else if (off + length out <=? length buf)%nat
       then Some (take off buf ++ out ++ drop (off + length out)%nat buf)
       else None.

Section Example.

Context {Space : Type} `{API : ServerAPI Space}.

(** Whether the example is compiled with [NDEBUG], which turns [assert]
    into nothing. *)
Variable NDEBUG : bool.

(** ** The state of the program *)

(** The file-scope objects, the static local of [readValue] and the server
    object. [allocated] and [written] are histories kept for the proofs, of
    the values [++FreeNodeId] evaluated to and of the indexes at which
    [DataTypes] was written; no function reads them. *)
Record Mem := mkMem {
  FreeNodeId : Z;                     (* static UA_UInt32 *)
  DataTypes : list UA_DataType;       (* static UA_DataType DataTypes[2] *)
  UsedDataTypes : Z;                  (* static size_t *)
  value : Z;                          (* static UA_Int32, in readValue *)
  server : option (UA_Server Space);  (* the object behind UA_Server * *)
  allocated : list Z;
  written : list Z
}.

Definition initial_Mem : Mem :=
  mkMem 0x80000000 [UA_DataType_zero; UA_DataType_zero] 0 0 None [] [].

Definition set_FreeNodeId (v : Z) (m : Mem) : Mem :=
  mkMem v (DataTypes m) (UsedDataTypes m) (value m) (server m)
        (allocated m) (written m).
Definition set_DataTypes (v : list UA_DataType) (m : Mem) : Mem :=
  mkMem (FreeNodeId m) v (UsedDataTypes m) (value m) (server m)
        (allocated m) (written m).
Definition set_UsedDataTypes (v : Z) (m : Mem) : Mem :=
  mkMem (FreeNodeId m) (DataTypes m) v (value m) (server m)
        (allocated m) (written m).
Definition set_value (v : Z) (m : Mem) : Mem :=
  mkMem (FreeNodeId m) (DataTypes m) (UsedDataTypes m) v (server m)
        (allocated m) (written m).
Definition set_server (v : option (UA_Server Space)) (m : Mem) : Mem :=
  mkMem (FreeNodeId m) (DataTypes m) (UsedDataTypes m) (value m) v
        (allocated m) (written m).
Definition log_allocated (v : Z) (m : Mem) : Mem :=
  mkMem (FreeNodeId m) (DataTypes m) (UsedDataTypes m) (value m) (server m)
        (allocated m ++ [v]) (written m).
Definition log_written (v : Z) (m : Mem) : Mem :=
  mkMem (FreeNodeId m) (DataTypes m) (UsedDataTypes m) (value m) (server m)
        (allocated m) (written m ++ [v]).

(** ** Computations *)

(** How a run ends: the function returns, an [assert] fails and the process
    aborts, or the behaviour is undefined (an access outside an array, a
    null pointer, an indeterminate value). *)
Inductive Outcome (A : Type) :=
| Returns (a : A) (m : Mem)
| Aborted (m : Mem)
| Undefined (m : Mem).
Arguments Returns {A}.
Arguments Aborted {A}.
Arguments Undefined {A}.

Definition M (A : Type) : Type := Mem -> Outcome A.

#[local] Instance M_ret : MRet M := fun A a m => Returns a m.
#[local] Instance M_bind : MBind M := fun A B f c m =>
  match c m with
  | Returns a m' => f a m'
  | Aborted m' => Aborted m'
  | Undefined m' => Undefined m'
  end.

Definition final_Mem {A} (o : Outcome A) : Mem :=
  match o with Returns _ m | Aborted m | Undefined m => m end.

Definition get : M Mem := fun m => Returns m m.
Definition modify (f : Mem -> Mem) : M unit := fun m => Returns tt (f m).
Definition undefined {A} : M A := fun m => Undefined m.

Definition assert (c : bool) : M unit := fun m =>
  if NDEBUG || c then Returns tt m else Aborted m.

Definition defined {A} (o : option A) : M A :=
  match o with Some a => mret a | None => undefined end.

(** A call of a library function on [*server]. *)
Definition call {A} (f : UA_Server Space -> A * UA_Server Space) : M A :=
  m ← get;
  s ← defined (server m);
  let r := f s in
  modify (set_server (Some r.2));;
  mret r.1.

(** The expression [++FreeNodeId]. *)
Definition preinc_FreeNodeId : M Z :=
  m ← get;
  let v := wrap_uint32 (FreeNodeId m + 1) in
  modify (fun m => log_allocated v (set_FreeNodeId v m));;
  mret v.

(** The statement [DataTypes[UsedDataTypes++] = d]. *)
Definition store_DataTypes (d : UA_DataType) : M unit :=
  m ← get;
  let i := UsedDataTypes m in
  modify (fun m => log_written i (set_UsedDataTypes ((i + 1) mod 2 ^ 64) m));;
  if (0 <=? i) && (i <? Z.of_nat (length (DataTypes m)))
  then modify (fun m => set_DataTypes (<[Z.to_nat i := d]> (DataTypes m)) m)
  else undefined.

(** ** Local arrays and loops *)

(** A local array whose elements are indeterminate until written. *)
Definition local_array (A : Type) (n : Z) : list (option A) :=
  replicate (Z.to_nat n) None.

(** [a[i] = x] *)
Definition array_set {A} (a : list (option A)) (i : Z) (x : A)
    : option (list (option A)) :=
  if (0 <=? i) && (i <? Z.of_nat (length a))
  then Some (<[Z.to_nat i := Some x]> a) else None.

(** [n] rounds of a loop whose counter starts at [i] and is incremented
    after each round. *)
Fixpoint rounds {S} (n : nat) (i : Z) (body : Z -> S -> option S) (s : S)
    : option S :=
  match n with
  | O => Some s
  | S n' => s' ← body i s; rounds n' (i + 1) body s'
  end.

(** [for(size_t i = 0; i < bound; ++i) body] *)
Definition for_size_t {S} (bound : Z) (body : Z -> S -> option S) (s : S)
    : option S :=
  rounds (Z.to_nat bound) 0 body s.

(** ** addEnumerationDataType *)

Definition addEnumerationDataType (nsIndex : Z) (name : string) : M UA_NodeId :=
  let nsIndex := wrap_uint16 nsIndex in
  let customEnumDataType := UA_TYPES UA_TYPES_ENUMERATION in
  id ← preinc_FreeNodeId;
  let enumerationDataTypeNodeId := UA_NODEID_NUMERIC nsIndex id in
  let customEnumDataType :=
    mkDataType (Some name) enumerationDataTypeNodeId enumerationDataTypeNodeId
               (memSize customEnumDataType) (typeKind customEnumDataType)
               (pointerFree customEnumDataType) (overlayable customEnumDataType)
               (membersSize customEnumDataType) in
  m ← get;
  s ← defined (server m);
  (match customDataTypes (config s) with
   | None =>
       modify (set_server
                 (Some (mkServer (mkServerConfig (Some addr_DataTypeArray))
                                 (space s))))
   | Some _ => mret tt
   end);;
  store_DataTypes customEnumDataType;;
  let dAttr :=
    mkDataTypeAttributes (UA_LOCALIZEDTEXT "" name)
                         (da_isAbstract UA_DataTypeAttributes_default) in
  retVal ← call (fun s =>
    UA_Server_addDataTypeNode s enumerationDataTypeNodeId
      (UA_NODEID_NUMERIC 0 UA_NS0ID_ENUMERATION)
      (UA_NODEID_NUMERIC 0 UA_NS0ID_HASSUBTYPE)
      (UA_QUALIFIEDNAME nsIndex name) dAttr);
  assert (retVal =? UA_STATUSCODE_GOOD);;
  mret enumerationDataTypeNodeId.

(** ** addEnumValues *)

(** One round of the loop that fills [enumValues]. *)
Definition enumValues_round (i : Z) (enumValues : list (option UA_EnumValueType))
    : option (list (option UA_EnumValueType)) :=
  let name := char_array "EnumValue   " in
  name ← snprintf_d name 10 (length name) (wrap_int32 i);
  let description := char_array "Description   " in
  description ← snprintf_d description 12 (length description) (wrap_int32 i);
  array_set enumValues i
    (mkEnumValueType (wrap_signed 64 i)
       (UA_LOCALIZEDTEXT_ALLOC "" (cstring name))
       (UA_LOCALIZEDTEXT_ALLOC "" (cstring description))).

(** The array [enumValues] after the loop. *)
Definition enumValues_filled : option (list (option UA_EnumValueType)) :=
  for_size_t ENUMVALUES_LEN enumValues_round
             (local_array UA_EnumValueType ENUMVALUES_LEN).

(** The value given to the [EnumValues] property: what
    [UA_Variant_setArray(&vAttr.value, enumValues, 5, ...)] leaves in
    [vAttr.value]. *)
Definition enumValues_value : option UA_Variant :=
  enumValues ← enumValues_filled;
  elements ← mapM (fmap VEnumValue) enumValues;
  Some (UA_Variant_setArray elements 5 UA_TYPES_ENUMVALUETYPE).

Definition addEnumValues (nsIndex : Z) (parentNodeId : UA_NodeId) : M unit :=
  let nsIndex := wrap_int16 nsIndex in
  let vAttr := UA_VariableAttributes_default in
  let arrayDimensions := [wrap_uint32 ENUMVALUES_LEN] in
  v ← defined enumValues_value;
  let vAttr :=
    mkVariableAttributes
      (UA_LOCALIZEDTEXT "" "EnumValues")
      v
      (typeId (UA_TYPES UA_TYPES_ENUMVALUETYPE))
      UA_VALUERANK_ONE_DIMENSION
      arrayDimensions
      UA_ACCESSLEVELMASK_READ
      UA_ACCESSLEVELMASK_READ in
  id ← preinc_FreeNodeId;
  retVal ← call (fun s =>
    UA_Server_addVariableNode s (UA_NODEID_NUMERIC nsIndex id) parentNodeId
      (UA_NODEID_NUMERIC 0 UA_NS0ID_HASPROPERTY)
      (UA_QUALIFIEDNAME 0 "EnumValues")
      (UA_NODEID_NUMERIC 0 UA_NS0ID_PROPERTYTYPE) vAttr);
  assert (retVal =? UA_STATUSCODE_GOOD).

(** ** addLocalizedText *)

(** One round of the loop that fills [enumStrings]. *)
Definition enumStrings_round (i : Z) (enumStrings : list (option UA_LocalizedText))
    : option (list (option UA_LocalizedText)) :=
  let text := char_array "EnumString   " in
  text ← snprintf_d text 11 (length text) (wrap_int32 i);
  array_set enumStrings i (UA_LOCALIZEDTEXT_ALLOC "" (cstring text)).

(** The array [enumStrings] after the loop. *)
Definition enumStrings_filled : option (list (option UA_LocalizedText)) :=
  for_size_t ENUMVALUES_LEN enumStrings_round
             (local_array UA_LocalizedText ENUMVALUES_LEN).

(** The value given to the [EnumStrings] property: what
    [UA_Variant_setArray(&vAttr.value, enumStrings, 5, ...)] leaves in
    [vAttr.value]. *)
Definition enumStrings_value : option UA_Variant :=
  enumStrings ← enumStrings_filled;
  elements ← mapM (fmap VLocalizedText) enumStrings;
  Some (UA_Variant_setArray elements 5 UA_TYPES_LOCALIZEDTEXT).

Definition addLocalizedText (nsIndex : Z) (parentNodeId : UA_NodeId) : M unit :=
  let nsIndex := wrap_int16 nsIndex in
  let vAttr := UA_VariableAttributes_default in
  let arrayDimensions := [wrap_uint32 0] in
  v ← defined enumStrings_value;
  let vAttr :=
    mkVariableAttributes
      (UA_LOCALIZEDTEXT "" "EnumStrings")
      v
      (typeId (UA_TYPES UA_TYPES_LOCALIZEDTEXT))
      UA_VALUERANK_ONE_DIMENSION
      arrayDimensions
      UA_ACCESSLEVELMASK_READ
      UA_ACCESSLEVELMASK_READ in
  id ← preinc_FreeNodeId;
  retVal ← call (fun s =>
    UA_Server_addVariableNode s (UA_NODEID_NUMERIC nsIndex id) parentNodeId
      (UA_NODEID_NUMERIC 0 UA_NS0ID_HASPROPERTY)
      (UA_QUALIFIEDNAME 0 "EnumStrings")
      (UA_NODEID_NUMERIC 0 UA_NS0ID_PROPERTYTYPE) vAttr);
  assert (retVal =? UA_STATUSCODE_GOOD).

(** ** addFolderNode *)

Definition addFolderNode (nsIndex : Z) : M UA_NodeId :=
  let nsIndex := wrap_int16 nsIndex in
  id ← preinc_FreeNodeId;
  let folderNodeId := UA_NODEID_NUMERIC nsIndex id in
  let oAttr := mkObjectAttributes (UA_LOCALIZEDTEXT "" "MyFolder") in
  retVal ← call (fun s =>
    UA_Server_addObjectNode s folderNodeId
      (UA_NODEID_NUMERIC 0 UA_NS0ID_OBJECTSFOLDER)
      (UA_NODEID_NUMERIC 0 UA_NS0ID_ORGANIZES)
      (UA_QUALIFIEDNAME nsIndex "MyFolderQualifiedName")
      (UA_NODEID_NUMERIC 0 UA_NS0ID_FOLDERTYPE) oAttr);
  assert (retVal =? UA_STATUSCODE_GOOD);;
  mret folderNodeId.

(** ** The data source: readValue and writeValue *)

(** The result is the status code and the object behind [dataValue] when
    the function returns. *)
Definition readValue (a : ReadArgs) : M (UA_StatusCode * option UA_DataValue) :=
  match r_dataValue a with
  | Some dataValue =>
      modify (fun m => set_value (wrap_int32 (value m + 1)) m);;
      m ← get;
      (if value m >=? ENUMVALUES_LEN then modify (set_value 0) else mret tt);;
      m ← get;
      let r := UA_Variant_setScalarCopy (r_heap a) (dv_value dataValue)
                                        (VInt32 (value m)) UA_TYPES_INT32 in
      let retVal := r.1 in
      let dataValue :=
        if retVal =? UA_STATUSCODE_GOOD
        then mkDataValue r.2 (r_now a) true (dv_hasSourceTimestamp dataValue)
        else mkDataValue r.2 (dv_sourceTimestamp dataValue)
                         (dv_hasValue dataValue)
                         (dv_hasSourceTimestamp dataValue) in
      mret (retVal, Some dataValue)
  | None => mret (UA_STATUSCODE_BADNOTFOUND, None)
  end.

Definition writeValue (a : WriteArgs) : M UA_StatusCode :=
  mret UA_STATUSCODE_BADNOTFOUND.

(** A sequence of reads, one after the other; the results in order. *)
Fixpoint reads (calls : list ReadArgs)
    : M (list (UA_StatusCode * option UA_DataValue)) :=
  match calls with
  | [] => mret []
  | a :: rest => r ← readValue a; rs ← reads rest; mret (r :: rs)
  end.

(** A call of a library function on [*server] during which the library
    calls [readValue]; what the reads return goes to the library. *)
Definition call_with_reads {A}
    (f : UA_Server Space -> A * UA_Server Space * list ReadArgs) : M A :=
  m ← get;
  s ← defined (server m);
  let r := f s in
  reads r.2;;
  modify (set_server (Some r.1.2));;
  mret r.1.1.

(** The value a read handed out, if it handed out one. *)
Definition produced (r : UA_StatusCode * option UA_DataValue) : option UA_Variant :=
  if r.1 =? UA_STATUSCODE_GOOD then dv_value <$> r.2 else None.

(** ** addVariableNode *)

(** [heap]: the outcome of the allocation in [UA_Variant_setScalarCopy]. *)
Definition addVariableNode (heap : bool) (dataTypeNodeId : UA_NodeId)
    (nsIndex : Z) (name : string) (parentNodeId : UA_NodeId) : M unit :=
  let nsIndex := wrap_uint16 nsIndex in
  let vAttr := UA_VariableAttributes_default in
  let value := UA_Variant_empty in
  let valueInt := 0 in
  let value :=
    (UA_Variant_setScalarCopy heap value (VInt32 valueInt) UA_TYPES_INT32).2 in
  let vAttr :=
    mkVariableAttributes
      (UA_LOCALIZEDTEXT "" name)
      value
      dataTypeNodeId
      UA_VALUERANK_SCALAR
      (va_arrayDimensions vAttr)
      (Z.lor UA_ACCESSLEVELMASK_READ UA_ACCESSLEVELMASK_WRITE)
      (va_userAccessLevel vAttr) in
  let dataSource := mkDataSource fn_readValue fn_writeValue in
  id ← preinc_FreeNodeId;
  retVal ← call_with_reads (fun s =>
    UA_Server_addDataSourceVariableNode s (UA_NODEID_NUMERIC nsIndex id)
      parentNodeId
      (UA_NODEID_NUMERIC 0 UA_NS0ID_ORGANIZES)
      (UA_QUALIFIEDNAME nsIndex "EnumVariableQualifiedName")
      (UA_NODEID_NUMERIC 0 UA_NS0ID_BASEDATAVARIABLETYPE) vAttr dataSource);
  assert (retVal =? UA_STATUSCODE_GOOD).

(** ** main *)

(** The set-up part of [main], before [UA_Server_runUntilInterrupt].
    [heap1] and [heap2] are the outcomes of the allocations made by the two
    calls of [addVariableNode]. *)
Definition main (heap1 heap2 : bool) : M Z :=
  modify (set_server UA_Server_new);;
  testNs ← call (fun s =>
    UA_Server_addNamespace s "http://yourorganisation.org/test/");
  let testNs := wrap_uint16 testNs in
  parentNodeId ← addFolderNode testNs;
  let enumValueName := "CustomEnumValueType"%string in
  enumValueType ← addEnumerationDataType testNs enumValueName;
  addEnumValues testNs enumValueType;;
  addVariableNode heap1 enumValueType testNs "EnumValueTypeVariable"
                  parentNodeId;;
  let enumTextName := "CustomLocalizedTextType"%string in
  enumLocalizedText ← addEnumerationDataType testNs enumTextName;
  addLocalizedText testNs enumLocalizedText;;
  addVariableNode heap2 enumLocalizedText testNs "LocalizedTextVariable"
                  parentNodeId;;
  mret 0.

(** ** Sequences of creations *)

(** One call of one of the five functions that create a node. *)
Inductive Creation :=
| NewFolderNode (nsIndex : Z)
| NewEnumerationDataType (nsIndex : Z) (name : string)
| NewEnumValues (nsIndex : Z) (parentNodeId : UA_NodeId)
| NewLocalizedText (nsIndex : Z) (parentNodeId : UA_NodeId)
| NewVariableNode (heap : bool) (dataTypeNodeId : UA_NodeId) (nsIndex : Z)
                  (name : string) (parentNodeId : UA_NodeId).

Definition create (c : Creation) : M unit :=
  match c with
  | NewFolderNode ns => addFolderNode ns;; mret tt
  | NewEnumerationDataType ns name => addEnumerationDataType ns name;; mret tt
  | NewEnumValues ns parent => addEnumValues ns parent
  | NewLocalizedText ns parent => addLocalizedText ns parent
  | NewVariableNode heap ty ns name parent =>
      addVariableNode heap ty ns name parent
  end.

Fixpoint creations (cs : list Creation) : M unit :=
  match cs with
  | [] => mret tt
  | c :: rest => create c;; creations rest
  end.

(** The identifiers a run handed out: what it added to [allocated]. *)
Definition handed_out (before after : Mem) : list Z :=
  drop (length (allocated before)) (allocated after).

(** ** Looking up a registered data type *)

(** Modelled from the spec: [resolve] of section 4.1; the function of the
    library that searches [config->customDataTypes] is not under src/. The
    descriptor the registry [DataTypes] holds under a type identifier is the
    first entry of the array whose [typeId] is the identifier. *)
Definition resolve (m : Mem) (id : UA_NodeId) : option UA_DataType :=
  List.find (fun d => UA_NodeId_equal (typeId d) id) (DataTypes m).

End Example.

Arguments Mem : clear implicits.
Arguments Outcome : clear implicits.
Arguments Returns {Space A}.
Arguments Aborted {Space A}.
Arguments Undefined {Space A}.

#[global] Existing Instance M_ret.
#[global] Existing Instance M_bind.

(** ** The kinds of error of the specification *)

Inductive ErrorKind :=
| NodeNotFound
| UnknownType
| DuplicateName
| InvalidReference
| ParentNotFound
| ShapeMismatch
| TypeMismatch
| AccessDenied
| WriteRejected
| SourceUnavailable.

(** Modelled from the spec: the dispatcher that calls a bound node's write
    strategy is not under src/. A write strategy that fails, fails with
    [WriteRejected]; the dispatcher hands the failure on as it is. This is
    how the status code a write strategy returns reads as an outcome of the
    write. *)
Definition write_outcome (retVal : UA_StatusCode) : option ErrorKind :=
  if retVal =? UA_STATUSCODE_GOOD then None else Some WriteRejected.

(** ** A model of the address space *)

(** Modelled from the spec: the library functions that add nodes to the
    address space ([UA_Server_addObjectNode], [UA_Server_addVariableNode],
    [UA_Server_addDataTypeNode], [UA_Server_addDataSourceVariableNode]) are
    not under src/; the example only calls them. The module follows sections
    3 and 4 of the specification: nodes, references, the registered types,
    and the creation operations with the failures they are specified to
    have. *)
Module AddressSpace.

(** The two value modes of a variable node. *)
Inductive ValueMode :=
| Stored (v : UA_Variant)
| Bound (b : UA_DataSource).

Inductive Node :=
| ObjectNode (id : UA_NodeId) (name : UA_QualifiedName)
| DataTypeNode (id : UA_NodeId) (name : UA_QualifiedName)
| VariableNode (id : UA_NodeId) (name : UA_QualifiedName)
               (declaredType : UA_NodeId) (arrayDimensions : list Z)
               (accessMask : Z) (mode : ValueMode).

Definition node_id (n : Node) : UA_NodeId :=
  match n with
  | ObjectNode id _ | DataTypeNode id _ | VariableNode id _ _ _ _ _ => id
  end.

(** A reference: source, kind, target. *)
Definition Reference : Type := UA_NodeId * UA_NodeId * UA_NodeId.

Record t := mk {
  nodes : list Node;
  references : list Reference;
  namespaces : list string
}.

(** The nodes of namespace 0 the example refers to. *)
Definition predefined_types : list Z :=
  [UA_NS0ID_INT32; UA_NS0ID_LOCALIZEDTEXT; UA_NS0ID_BASEDATATYPE;
   UA_NS0ID_ENUMERATION; UA_NS0ID_ENUMVALUETYPE].

Definition initial : t :=
  mk [ObjectNode (UA_NODEID_NUMERIC 0 UA_NS0ID_OBJECTSFOLDER)
                 (UA_QUALIFIEDNAME 0 "Objects");
      DataTypeNode (UA_NODEID_NUMERIC 0 UA_NS0ID_ENUMERATION)
                   (UA_QUALIFIEDNAME 0 "Enumeration")]
     []
     ["http://opcfoundation.org/UA/"%string].

Definition exists_node (a : t) (id : UA_NodeId) : bool :=
  existsb (fun n => UA_NodeId_equal (node_id n) id) (nodes a).

Definition is_data_type (n : Node) : bool :=
  match n with DataTypeNode _ _ => true | _ => false end.

Definition data_type_named (name : UA_QualifiedName) (n : Node) : bool :=
  match n with
  | DataTypeNode _ name' =>
      (qnNamespaceIndex name' =? qnNamespaceIndex name)
      && String.eqb (qnName name') (qnName name)
  | _ => false
  end.

(** Modelled from the spec: a declared type resolves when it is a registered
    type or one of the predefined primitive types. *)
Definition resolves (a : t) (ty : UA_NodeId) : bool :=
  ((namespaceIndex ty =? 0)
   && existsb (Z.eqb (identifier ty)) predefined_types)
  || existsb (fun n => is_data_type n && UA_NodeId_equal (node_id n) ty)
             (nodes a).

(** Modelled from the spec: the shape of a value matches the declared array
    dimensions when a scalar comes with no dimension and an array with one
    dimension of its own length. A declared length of 0 leaves the length
    open: [addLocalizedText] declares [{0}], supplies five entries and
    asserts that the node is created. *)
Definition shape_matches (arrayDimensions : list Z) (v : UA_Variant) : bool :=
  match arrayDimensions, vdata v with
  | [], VEmpty | [], VScalar _ => true
  | [d], VArray vs => (d =? 0) || (d =? Z.of_nat (length vs))
  | _, _ => false
  end.

Definition hierarchical_for_objects (kind : UA_NodeId) : bool :=
  UA_NodeId_equal kind (UA_NODEID_NUMERIC 0 UA_NS0ID_ORGANIZES).

Definition insert (a : t) (n : Node) (parent kind : UA_NodeId) : t :=
  mk (nodes a ++ [n]) (references a ++ [(parent, kind, node_id n)])
     (namespaces a).

(** Modelled from the spec: [register] of section 4.1, with the identifier
    chosen by the caller as the library call has it. It fails with
    [DuplicateName] when the name already denotes a registered type. *)
Definition addDataTypeNode (a : t) (id parent kind : UA_NodeId)
    (name : UA_QualifiedName) : ErrorKind + t :=
  if negb (exists_node a parent) then inl ParentNotFound
  else if existsb (data_type_named name) (nodes a) then inl DuplicateName
  else inr (insert a (DataTypeNode id name) parent kind).

(** Modelled from the spec: [addObjectNode] of section 4.2. *)
Definition addObjectNode (a : t) (id parent kind : UA_NodeId)
    (name : UA_QualifiedName) : ErrorKind + t :=
  if negb (exists_node a parent) then inl ParentNotFound
  else if negb (hierarchical_for_objects kind) then inl InvalidReference
  else inr (insert a (ObjectNode id name) parent kind).

(** Modelled from the spec: [addVariableNode] of section 4.2, for a node
    with a stored value. It fails with [UnknownType] when the declared type
    does not resolve and with [ShapeMismatch] when the shape of the initial
    value does not match the declared array dimensions. *)
Definition addVariableNode (a : t) (id parent kind : UA_NodeId)
    (name : UA_QualifiedName) (attr : UA_VariableAttributes) : ErrorKind + t :=
  if negb (resolves a (va_dataType attr)) then inl UnknownType
  else if negb (shape_matches (va_arrayDimensions attr) (va_value attr))
  then inl ShapeMismatch
  else inr (insert a (VariableNode id name (va_dataType attr)
                                   (va_arrayDimensions attr)
                                   (va_accessLevel attr)
                                   (Stored (va_value attr)))
                   parent kind).

(** Modelled from the spec: [addVariableNode] of section 4.2, for a node
    with a binding; there is no stored value whose shape could mismatch. *)
Definition addDataSourceVariableNode (a : t) (id parent kind : UA_NodeId)
    (name : UA_QualifiedName) (attr : UA_VariableAttributes)
    (b : UA_DataSource) : ErrorKind + t :=
  if negb (resolves a (va_dataType attr)) then inl UnknownType
  else inr (insert a (VariableNode id name (va_dataType attr)
                                   (va_arrayDimensions attr)
                                   (va_accessLevel attr) (Bound b))
                   parent kind).

Definition addNamespace (a : t) (uri : string) : Z * t :=
  (Z.of_nat (length (namespaces a)),
   mk (nodes a) (references a) (namespaces a ++ [uri])).

(** The status code that stands for a kind of error: the specification
    leaves the codes to the callers of the core. *)
Definition status_of (e : ErrorKind) : UA_StatusCode :=
  match e with
  | NodeNotFound => 0x80340000
  | UnknownType => 0x80110000
  | DuplicateName => 0x80610000
  | InvalidReference => 0x804C0000
  | ParentNotFound => 0x805B0000
  | ShapeMismatch => 0x80740000
  | TypeMismatch => 0x80740000
  | AccessDenied => 0x801F0000
  | WriteRejected => 0x803B0000
  | SourceUnavailable => 0x80040000
  end.

(** A call on a server: on failure the address space stays as it was. *)
Definition on_server (s : UA_Server t) (r : ErrorKind + t)
    : UA_StatusCode * UA_Server t :=
  match r with
  | inl e => (status_of e, s)
  | inr a => (UA_STATUSCODE_GOOD, mkServer (config s) a)
  end.

(** The built-in table and default values of the model. *)
Definition types (i : UA_TypesIndex) : UA_DataType :=
  match i with
  | UA_TYPES_INT32 =>
      mkDataType (Some "Int32"%string) (UA_NODEID_NUMERIC 0 UA_NS0ID_INT32)
                 UA_NODEID_NULL 4 UA_DATATYPEKIND_INT32 true true 0
  | UA_TYPES_LOCALIZEDTEXT =>
      mkDataType (Some "LocalizedText"%string)
                 (UA_NODEID_NUMERIC 0 UA_NS0ID_LOCALIZEDTEXT)
                 UA_NODEID_NULL 32 UA_DATATYPEKIND_LOCALIZEDTEXT false false 0
  | UA_TYPES_ENUMVALUETYPE =>
      mkDataType (Some "EnumValueType"%string)
                 (UA_NODEID_NUMERIC 0 UA_NS0ID_ENUMVALUETYPE)
                 (UA_NODEID_NUMERIC 0 8251) 72 UA_DATATYPEKIND_STRUCTURE
                 false false 3
  | UA_TYPES_ENUMERATION =>
      mkDataType (Some "Enumeration"%string)
                 (UA_NODEID_NUMERIC 0 UA_NS0ID_ENUMERATION)
                 UA_NODEID_NULL 4 UA_DATATYPEKIND_ENUM true true 0
  end.

#[export] Instance api : ServerAPI t := {|
  UA_TYPES := types;
  UA_VariableAttributes_default :=
    mkVariableAttributes (UA_LOCALIZEDTEXT "" "") UA_Variant_empty
      (UA_NODEID_NUMERIC 0 UA_NS0ID_BASEDATATYPE) (-2) []
      UA_ACCESSLEVELMASK_READ UA_ACCESSLEVELMASK_READ;
  UA_ObjectAttributes_default := mkObjectAttributes (UA_LOCALIZEDTEXT "" "");
  UA_DataTypeAttributes_default :=
    mkDataTypeAttributes (UA_LOCALIZEDTEXT "" "") false;
  UA_Server_new := Some (mkServer (mkServerConfig None) initial);
  UA_Server_addNamespace := fun s uri =>
    let r := addNamespace (space s) uri in (r.1, mkServer (config s) r.2);
  UA_Server_addDataTypeNode := fun s id parent kind name attr =>
    on_server s (addDataTypeNode (space s) id parent kind name);
  UA_Server_addVariableNode := fun s id parent kind name tydef attr =>
    on_server s (addVariableNode (space s) id parent kind name attr);
  UA_Server_addObjectNode := fun s id parent kind name tydef attr =>
    on_server s (addObjectNode (space s) id parent kind name);
  UA_Server_addDataSourceVariableNode := fun s id parent kind name tydef attr b =>
    (on_server s (addDataSourceVariableNode (space s) id parent kind name attr b),
     [])
|}.

End AddressSpace.

(** * The vocabulary of the properties *)

Section Vocabulary.

Context {Space : Type}.

(** The counter after one more read. *)
Definition next_value (v : Z) : Z :=
  if wrap_int32 (v + 1) >=? ENUMVALUES_LEN then 0 else wrap_int32 (v + 1).

Definition int32_scalar (z : Z) : UA_Variant :=
  mkVariant (Some UA_TYPES_INT32) (VScalar (VInt32 z)).

(** The values of [n] successful reads in a row, from the counter [v]. *)
Fixpoint rotation (n : nat) (v : Z) : list Z :=
  match n with
  | O => []
  | S n' => next_value v :: rotation n' (next_value v)
  end.

Definition successful (a : ReadArgs) : Prop :=
  r_heap a = true /\ is_Some (r_dataValue a).

(** [c], started in a state that satisfies [P], ends in a state that
    satisfies [Q] when it returns and [E] when it does not. *)
Definition hoare {A} (P : Mem Space -> Prop) (c : M A)
    (Q : A -> Mem Space -> Prop) (E : Mem Space -> Prop) : Prop :=
  forall m, P m ->
    match c m with
    | Returns a m' => Q a m'
    | Aborted m' | Undefined m' => E m'
    end.

(** A computation that leaves a relation between the state before and
    after, however it ends. *)
Definition keeps {A} (R : Mem Space -> Mem Space -> Prop) (c : M A) : Prop :=
  forall m, R m (final_Mem (c m)).

(** [m'] agrees with [m] on a part of the state. *)
Definition unchanged {T} (part : Mem Space -> T) (m m' : Mem Space) : Prop :=
  part m' = part m.

(** The registry of data types, and the allocator of identifiers. *)
Definition registry (m : Mem Space) : Z * list Z * list UA_DataType :=
  (UsedDataTypes m, written m, DataTypes m).
Definition allocator (m : Mem Space) : Z * list Z :=
  (FreeNodeId m, allocated m).

(** The registry after [k] registrations from the initial state. *)
Definition stage (k : nat) (m : Mem Space) : Prop :=
  written m = map Z.of_nat (seq 0 k)
  /\ UsedDataTypes m = Z.of_nat k
  /\ length (DataTypes m) = 2%nat.

Definition upto (k : nat) (m : Mem Space) : Prop :=
  exists j, (j <= k)%nat /\ stage j m.


(** One more identifier has been handed out: the counter plus one, on 32
    bits. *)
Definition one_more (m m' : Mem Space) : Prop :=
  allocator m'
  = (wrap_uint32 (FreeNodeId m + 1),
     allocated m ++ [wrap_uint32 (FreeNodeId m + 1)]).

(** Whether a call of [readValue] comes with an object to fill. *)
Definition has_output (a : ReadArgs) : bool :=
  match r_dataValue a with Some _ => true | None => false end.

(** [c], started in a state that satisfies [P], does not run into undefined
    behaviour, ends in a state that satisfies [Q] when it returns, and
    aborts only if [E]. *)
Definition total {A} (P : Mem Space -> Prop) (c : M A)
    (Q : A -> Mem Space -> Prop) (E : Prop) : Prop :=
  forall m, P m ->
    match c m with
    | Returns a m' => Q a m'
    | Aborted _ => E
    | Undefined _ => False
    end.

(** The program has a server object. *)
Definition serving (m : Mem Space) : Prop := is_Some (server m).

(** Whether a creation is a call of [addEnumerationDataType]. *)
Definition is_registration (c : Creation) : bool :=
  match c with NewEnumerationDataType _ _ => true | _ => false end.

End Vocabulary.

(** ** The stages of main *)

Section Stages.

Context {Space : Type} {API : ServerAPI Space}.

(** The descriptor [addEnumerationDataType] stores for a name and an
    identifier. *)
Definition custom_enum (name : string) (id : UA_NodeId) : UA_DataType :=
  let builtin := UA_TYPES UA_TYPES_ENUMERATION in
  mkDataType (Some name) id id (memSize builtin) (typeKind builtin)
             (pointerFree builtin) (overlayable builtin) (membersSize builtin).

(** The identifier [main] gives to its [k]-th node, in namespace [ns]. *)
Definition nth_id (ns : Z) (k : Z) : UA_NodeId :=
  mkNodeId (wrap_uint16 ns) (0x80000000 + k).

(** The registry of [main] once [k] nodes have been created: the two types
    are its second and its fifth node. *)
Definition registry_at (ns : Z) (k : nat) : Z * list Z * list UA_DataType :=
  if (k <? 2)%nat then (0, [], [UA_DataType_zero; UA_DataType_zero])
  else if (k <? 5)%nat
       then (1, [0],
             [custom_enum "CustomEnumValueType" (nth_id ns 2); UA_DataType_zero])
       else (2, [0; 1],
             [custom_enum "CustomEnumValueType" (nth_id ns 2);
              custom_enum "CustomLocalizedTextType" (nth_id ns 5)]).

(** The state of [main] once [k] nodes have been created. *)
Definition at_step (ns : Z) (k : nat) (m : Mem Space) : Prop :=
  serving m
  /\ allocator m = (0x80000000 + Z.of_nat k,
                    map (fun j => 0x80000000 + Z.of_nat j) (seq 1 k))
  /\ registry m = registry_at ns k.

End Stages.

(** ** Concrete inputs on the model *)

(** The state [main] is in once the server exists. *)
Definition model_start : Mem AddressSpace.t :=
  set_server (@UA_Server_new _ AddressSpace.api) initial_Mem.


Definition a_read : ReadArgs :=
  mkReadArgs true 133000000000000000 0 None 0 (Some (mkNodeId 1 0x80000004)) 0
             true None
             (Some (mkDataValue UA_Variant_empty 0 false false)).

Definition a_null_read : ReadArgs :=
  mkReadArgs true 133000000000000000 0 None 0 (Some (mkNodeId 1 0x80000004)) 0
             true None None.

(** The state of [main] after the folder has been added, on the model. *)
Definition model_with_folder : Mem AddressSpace.t :=
  final_Mem (addFolderNode (API := AddressSpace.api) false 1 model_start).

(** The seven creations of [main], with the identifiers they get on the
    model. *)
Definition creations_of_main : list Creation :=
  [NewFolderNode 1;
   NewEnumerationDataType 1 "CustomEnumValueType";
   NewEnumValues 1 (mkNodeId 1 0x80000002);
   NewVariableNode true (mkNodeId 1 0x80000002) 1 "EnumValueTypeVariable"
                   (mkNodeId 1 0x80000001);
   NewEnumerationDataType 1 "CustomLocalizedTextType";
   NewLocalizedText 1 (mkNodeId 1 0x80000005);
   NewVariableNode true (mkNodeId 1 0x80000005) 1 "LocalizedTextVariable"
                   (mkNodeId 1 0x80000001)].



Definition a_failed_read : ReadArgs :=
  mkReadArgs false 133000000000000000 0 None 0 (Some (mkNodeId 1 0x80000004)) 0
             true None
             (Some (mkDataValue UA_Variant_empty 0 false false)).

(** The state of [main] on the model once the first custom type has been
    registered, and once [main] has returned. *)
Definition model_with_type : Mem AddressSpace.t :=
  final_Mem (addEnumerationDataType (API := AddressSpace.api) false 1
                                    "CustomEnumValueType" model_with_folder).

Definition model_after_main : Mem AddressSpace.t :=
  final_Mem (main (API := AddressSpace.api) false true true initial_Mem).

(** The state on the model once a first type has been registered, with
    [NDEBUG]. *)
Definition model_first : Mem AddressSpace.t :=
  final_Mem (create (API := AddressSpace.api) true
                    (NewEnumerationDataType 1 "First") model_start).


(** * Properties *)

Section Properties.

Context {Space : Type} {API : ServerAPI Space}.
Variable NDEBUG : bool.

Local Abbreviation M := (@M Space).

(** ** Integers *)

Lemma wrap_int32_small z : -2 ^ 31 <= z < 2 ^ 31 -> wrap_int32 z = z.
Proof.
  intros H. unfold wrap_int32, wrap_signed.
  rewrite Z.mod_small; lia.
Qed.

Lemma wrap_uint32_small z : 0 <= z < 2 ^ 32 -> wrap_uint32 z = z.
Proof. intros H. unfold wrap_uint32. apply Z.mod_small; lia. Qed.

Lemma UA_NodeId_equal_spec a b : UA_NodeId_equal a b = true <-> a = b.
Proof.
  destruct a as [n1 i1], b as [n2 i2]. unfold UA_NodeId_equal. cbn.
  rewrite andb_true_iff, !Z.eqb_eq. split.
  - intros [-> ->]. reflexivity.
  - intros [= -> ->]. split; reflexivity.
Qed.

(** ** readValue *)

Lemma next_value_rotates v :
  0 <= v < ENUMVALUES_LEN -> next_value v = (v + 1) mod ENUMVALUES_LEN.
Proof.
  unfold next_value, ENUMVALUES_LEN. intros H.
  rewrite wrap_int32_small by lia.
  destruct (Z.geb_spec (v + 1) 5) as [Hge | Hlt].
  - replace v with 4 by lia. reflexivity.
  - rewrite Z.mod_small; lia.
Qed.

(** What a read with a non-null [dataValue] does, in one equation. *)
Lemma readValue_nonnull (a : ReadArgs) (dv : UA_DataValue) (m : Mem Space) :
  r_dataValue a = Some dv ->
  readValue a m =
    let v := next_value (value m) in
    let r := UA_Variant_setScalarCopy (r_heap a) (dv_value dv) (VInt32 v)
                                      UA_TYPES_INT32 in
    Returns
      (r.1,
       Some (if r.1 =? UA_STATUSCODE_GOOD
             then mkDataValue r.2 (r_now a) true (dv_hasSourceTimestamp dv)
             else mkDataValue r.2 (dv_sourceTimestamp dv) (dv_hasValue dv)
                              (dv_hasSourceTimestamp dv)))
      (set_value v m).
Proof.
  intros Hdv. unfold readValue, next_value. rewrite Hdv.
  unfold mbind, M_bind, mret, M_ret, modify, get. cbn.
  destruct (wrap_int32 (value m + 1) >=? ENUMVALUES_LEN); reflexivity.
Qed.

Lemma reads_successful (calls : list ReadArgs) :
  Forall successful calls ->
  forall m : Mem Space,
  exists rs m',
    reads calls m = Returns rs m'
    /\ Forall (fun r => r.1 = UA_STATUSCODE_GOOD) rs
    /\ map produced rs
       = map (fun z => Some (int32_scalar z)) (rotation (length calls) (value m)).
Proof.
  induction 1 as [| a calls [Hheap [dv Hdv]] _ IH]; intros m.
  - exists [], m. repeat split; constructor.
  - destruct (IH (set_value (next_value (value m)) m)) as (rs & m' & Hrs & Hgood & Hvals).
    cbn [reads]. unfold mbind at 1, M_bind.
    rewrite (readValue_nonnull a dv m Hdv), Hheap. cbn.
    unfold mbind, M_bind. rewrite Hrs. cbn.
    eexists _, m'. split; [reflexivity |]. split.
    + constructor; [reflexivity | exact Hgood].
    + cbn. f_equal. exact Hvals.
Qed.

(** C1. Seven successful reads in a row, from the counter at 0, return good
    status codes and hand out the Int32 scalars 1, 2, 3, 4, 0, 1, 2 in that
    order. *)
Theorem reads_seven_from_zero (calls : list ReadArgs) (m : Mem Space) :
  length calls = 7%nat ->
  Forall successful calls ->
  value m = 0 ->
  exists rs m',
    reads calls m = Returns rs m'
    /\ Forall (fun r => r.1 = UA_STATUSCODE_GOOD) rs
    /\ map produced rs = map (fun z => Some (int32_scalar z)) [1; 2; 3; 4; 0; 1; 2].
Proof.
  intros Hlen Hok Hzero.
  destruct (reads_successful calls Hok m) as (rs & m' & Hrs & Hgood & Hvals).
  exists rs, m'. split; [exact Hrs |]. split; [exact Hgood |].
  rewrite Hvals, Hlen, Hzero. reflexivity.
Qed.

(** C8. With a null [dataValue] the function returns BADNOTFOUND and leaves
    the whole state, the counter included, as it was. *)
Theorem readValue_null (a : ReadArgs) (m : Mem Space) :
  r_dataValue a = None ->
  readValue a m = Returns (UA_STATUSCODE_BADNOTFOUND, None) m
  /\ value (final_Mem (readValue a m)) = value m.
Proof.
  intros Hnull. unfold readValue. rewrite Hnull. split; reflexivity.
Qed.

(** C4. A read with a non-null [dataValue] changes nothing of the state but
    the counter and keeps the counter within 0..4 when it was there, moving
    it on by one modulo 5. When the copy of the value succeeds the call
    returns GOOD and what it hands out is a scalar of type Int32 holding the
    counter; when the copy fails the call returns BADOUTOFMEMORY and hands
    out nothing: the object behind [dataValue] is as it was. *)
Theorem readValue_confined (a : ReadArgs) (dv : UA_DataValue) (m : Mem Space) :
  r_dataValue a = Some dv ->
  exists out m',
    readValue a m
    = Returns (if r_heap a then UA_STATUSCODE_GOOD
               else UA_STATUSCODE_BADOUTOFMEMORY, Some out) m'
    /\ m' = set_value (value m') m
    /\ (0 <= value m < ENUMVALUES_LEN ->
        value m' = (value m + 1) mod ENUMVALUES_LEN
        /\ 0 <= value m' < ENUMVALUES_LEN)
    /\ (r_heap a = true ->
        out = mkDataValue (int32_scalar (value m')) (r_now a) true
                          (dv_hasSourceTimestamp dv))
    /\ (r_heap a = false -> out = dv).
Proof.
  intros Hdv. rewrite (readValue_nonnull a dv m Hdv). cbv zeta.
  destruct (r_heap a); cbn.
  - eexists _, _. split; [reflexivity |]. split; [reflexivity |].
    split; [| split; [intros _; reflexivity | discriminate]].
    intros Hrange. cbn. rewrite next_value_rotates by exact Hrange.
    split; [reflexivity | apply Z.mod_pos_bound; reflexivity].
  - eexists _, _. split; [reflexivity |]. split; [reflexivity |].
    split; [| split; [discriminate | intros _; destruct dv; reflexivity]].
    intros Hrange. cbn. rewrite next_value_rotates by exact Hrange.
    split; [reflexivity | apply Z.mod_pos_bound; reflexivity].
Qed.

(** ** writeValue *)

(** C2. Whatever it is called with, the write strategy fails: it returns a
    bad status code, which as the outcome of a write is WriteRejected. *)
Theorem writeValue_rejects (a : WriteArgs) (m : Mem Space) :
  exists retVal,
    writeValue a m = Returns retVal m
    /\ UA_StatusCode_isBad retVal = true
    /\ write_outcome retVal = Some WriteRejected.
Proof. exists UA_STATUSCODE_BADNOTFOUND. repeat split. Qed.

(** C9. [writeValue] returns BADNOTFOUND for all arguments and leaves the
    state as it was, so two calls on any arguments in any states return the
    same status code. *)
Theorem writeValue_constant :
  (forall (a : WriteArgs) (m : Mem Space),
      writeValue a m = Returns UA_STATUSCODE_BADNOTFOUND m)
  /\ (forall (a1 a2 : WriteArgs) (m1 m2 : Mem Space) r1 r2 m1' m2',
        writeValue a1 m1 = Returns r1 m1' ->
        writeValue a2 m2 = Returns r2 m2' ->
        r1 = r2 /\ m1' = m1 /\ m2' = m2).
Proof.
  split; [reflexivity |].
  intros a1 a2 m1 m2 r1 r2 m1' m2' H1 H2.
  unfold writeValue, mret, M_ret in *. inversion H1. inversion H2. auto.
Qed.

(** ** Running the computations *)

Lemma hoare_bind {A B} (P : Mem Space -> Prop) (c : M A) (k : A -> M B)
    Q Q' E :
  hoare P c Q E -> (forall a, hoare (Q a) (k a) Q' E) ->
  hoare P (c ≫= k) Q' E.
Proof.
  intros Hc Hk m HP. specialize (Hc m HP).
  unfold mbind, M_bind. destruct (c m) as [a m' | m' | m']; auto.
  apply Hk, Hc.
Qed.

Section Keeps.

Context {T : Type} (part : Mem Space -> T).

Lemma keeps_ret {A} (a : A) : keeps (unchanged part) (mret a).
Proof. intros m. reflexivity. Qed.

Lemma keeps_get : keeps (unchanged part) get.
Proof. intros m. reflexivity. Qed.

Lemma keeps_undefined {A} : keeps (unchanged part) (@undefined Space A).
Proof. intros m. reflexivity. Qed.

Lemma keeps_defined {A} (o : option A) : keeps (unchanged part) (defined o).
Proof. destruct o; [apply keeps_ret | apply keeps_undefined]. Qed.

Lemma keeps_assert c : keeps (unchanged part) (assert NDEBUG c).
Proof. intros m. unfold assert. destruct (NDEBUG || c); reflexivity. Qed.

Lemma keeps_modify f :
  (forall m, part (f m) = part m) -> keeps (unchanged part) (modify f).
Proof. intros Hf m. apply Hf. Qed.

Lemma keeps_bind {A B} (c : M A) (k : A -> M B) :
  keeps (unchanged part) c -> (forall a, keeps (unchanged part) (k a)) ->
  keeps (unchanged part) (c ≫= k).
Proof.
  intros Hc Hk m. specialize (Hc m). unfold mbind, M_bind.
  destruct (c m) as [a m' | m' | m']; cbn in *; auto.
  unfold unchanged in *. rewrite <- Hc. apply Hk.
Qed.

Lemma keeps_call {A} (f : UA_Server Space -> A * UA_Server Space) :
  (forall s m, part (set_server s m) = part m) ->
  keeps (unchanged part) (call f).
Proof.
  intros Hs. unfold call.
  apply keeps_bind; [apply keeps_get | intros m].
  apply keeps_bind; [apply keeps_defined | intros s].
  apply keeps_bind; [apply keeps_modify; intros; apply Hs | intros _].
  apply keeps_ret.
Qed.

Lemma keeps_readValue (a : ReadArgs) :
  (forall v m, part (set_value v m) = part m) ->
  keeps (unchanged part) (readValue a).
Proof.
  intros Hv. unfold readValue. destruct (r_dataValue a); [| apply keeps_ret].
  apply keeps_bind; [apply keeps_modify; intros; apply Hv | intros _].
  apply keeps_bind; [apply keeps_get | intros m].
  apply keeps_bind; [| intros _].
  - destruct (value m >=? ENUMVALUES_LEN);
      [apply keeps_modify; intros; apply Hv | apply keeps_ret].
  - apply keeps_bind; [apply keeps_get | intros m']. apply keeps_ret.
Qed.

Lemma keeps_reads (calls : list ReadArgs) :
  (forall v m, part (set_value v m) = part m) ->
  keeps (unchanged part) (reads calls).
Proof.
  intros Hv. induction calls as [| a calls IH]; cbn [reads].
  - apply keeps_ret.
  - apply keeps_bind; [apply keeps_readValue, Hv | intros r].
    apply keeps_bind; [exact IH | intros rs]. apply keeps_ret.
Qed.

Lemma keeps_call_with_reads {A}
    (f : UA_Server Space -> A * UA_Server Space * list ReadArgs) :
  (forall s m, part (set_server s m) = part m) ->
  (forall v m, part (set_value v m) = part m) ->
  keeps (unchanged part) (call_with_reads f).
Proof.
  intros Hs Hv. unfold call_with_reads.
  apply keeps_bind; [apply keeps_get | intros m].
  apply keeps_bind; [apply keeps_defined | intros s].
  apply keeps_bind; [apply keeps_reads, Hv | intros _].
  apply keeps_bind; [apply keeps_modify; intros; apply Hs | intros _].
  apply keeps_ret.
Qed.

End Keeps.

Ltac keeps_unchanged :=
  repeat first
    [ apply keeps_ret | apply keeps_get | apply keeps_undefined
    | apply keeps_defined | apply keeps_assert
    | apply keeps_call; intros; reflexivity
    | apply keeps_call_with_reads; intros; reflexivity
    | apply keeps_modify; intros; reflexivity
    | apply keeps_bind; [| intros ?]
    | match goal with
      | |- keeps _ (match ?x with _ => _ end) => destruct x
      end ].

(** ** The arrays built by the loops *)

Lemma enumStrings_value_eq :
  enumStrings_value
  = Some (mkVariant (Some UA_TYPES_LOCALIZEDTEXT)
            (VArray (map (fun k => VLocalizedText
                                     (mkLocalizedText "" ("EnumString " ++ decimal k)))
                         [0; 1; 2; 3; 4]))).
Proof. vm_compute. reflexivity. Qed.

Lemma enumValues_value_eq :
  enumValues_value
  = Some (mkVariant (Some UA_TYPES_ENUMVALUETYPE)
            (VArray (map (fun k => VEnumValue
                                     (mkEnumValueType k
                                        (mkLocalizedText "" ("EnumValue " ++ decimal k))
                                        (mkLocalizedText "" ("Description " ++ decimal k))))
                         [0; 1; 2; 3; 4]))).
Proof. vm_compute. reflexivity. Qed.

(** C7. With a server, [addLocalizedText] calls [UA_Server_addVariableNode]
    for a property EnumStrings whose value is an array of exactly five
    LocalizedText entries, and the entry at position k, for k from 0 to 4, is
    the text of member k: the key of a member is its position. What the
    call does apart from that is to use up an identifier, to hand the server
    over to the library and to assert that the library returned GOOD. *)
Theorem addLocalizedText_enumStrings (nsIndex : Z) (parentNodeId : UA_NodeId)
    (m : Mem Space) (s : UA_Server Space) :
  server m = Some s ->
  exists vs,
    Z.of_nat (length vs) = ENUMVALUES_LEN
    /\ (forall k, 0 <= k < ENUMVALUES_LEN ->
          vs !! Z.to_nat k
          = Some (VLocalizedText
                    (UA_LOCALIZEDTEXT_ALLOC "" ("EnumString " ++ decimal k))))
    /\ let id := wrap_uint32 (FreeNodeId m + 1) in
       let vAttr :=
         mkVariableAttributes
           (UA_LOCALIZEDTEXT "" "EnumStrings")
           (mkVariant (Some UA_TYPES_LOCALIZEDTEXT) (VArray vs))
           (typeId (UA_TYPES UA_TYPES_LOCALIZEDTEXT))
           UA_VALUERANK_ONE_DIMENSION [0]
           UA_ACCESSLEVELMASK_READ UA_ACCESSLEVELMASK_READ in
       let r :=
         UA_Server_addVariableNode s
           (UA_NODEID_NUMERIC (wrap_int16 nsIndex) id) parentNodeId
           (UA_NODEID_NUMERIC 0 UA_NS0ID_HASPROPERTY)
           (UA_QUALIFIEDNAME 0 "EnumStrings")
           (UA_NODEID_NUMERIC 0 UA_NS0ID_PROPERTYTYPE) vAttr in
       let m' := set_server (Some r.2) (log_allocated id (set_FreeNodeId id m)) in
       addLocalizedText NDEBUG nsIndex parentNodeId m
       = if NDEBUG || (r.1 =? UA_STATUSCODE_GOOD)
         then Returns tt m' else Aborted m'.
Proof.
  intros Hs.
  exists (map (fun k => VLocalizedText
                          (mkLocalizedText "" ("EnumString " ++ decimal k)))
              [0; 1; 2; 3; 4]).
  split; [| split].
  3: { destruct m as [F D U v sv al wr]. cbn in Hs. subst sv.
       unfold addLocalizedText. rewrite enumStrings_value_eq.
       unfold call, preinc_FreeNodeId, defined, undefined, assert, modify, get.
       unfold mbind, M_bind, mret, M_ret. cbn.
       destruct (NDEBUG || _); reflexivity. }
  - reflexivity.
  - intros k Hk. unfold ENUMVALUES_LEN in Hk.
    assert (k = 0 \/ k = 1 \/ k = 2 \/ k = 3 \/ k = 4) as Hcases by lia.
    destruct Hcases as [-> | [-> | [-> | [-> | ->]]]]; reflexivity.
Qed.

(** ** The registry *)

Lemma find_insert_first {A} (p : A -> bool) (l : list A) (i : nat) (d : A) :
  (i < length l)%nat -> p d = true ->
  (forall j x, (j < i)%nat -> l !! j = Some x -> p x = false) ->
  List.find p (<[i := d]> l) = Some d.
Proof.
  revert i. induction l as [| x l IH]; intros i Hi Hd Hbefore; cbn in Hi.
  - lia.
  - destruct i as [| i]; cbn.
    + rewrite Hd. reflexivity.
    + rewrite (Hbefore 0%nat x) by (cbn; auto with lia).
      apply IH; [lia | exact Hd |].
      intros j y Hj Hy. apply (Hbefore (S j) y); [lia | exact Hy].
Qed.

Ltac run_monad :=
  unfold store_DataTypes, call, preinc_FreeNodeId,
         defined, undefined, assert, modify, get;
  unfold mbind, M_bind, mret, M_ret.

(** What a call of [addEnumerationDataType] that returns has done. *)
Lemma addEnumerationDataType_returns (nsIndex : Z) (name : string)
    (m m' : Mem Space) (id : UA_NodeId) :
  addEnumerationDataType NDEBUG nsIndex name m = Returns id m' ->
  let builtin := UA_TYPES UA_TYPES_ENUMERATION in
  let i := UsedDataTypes m in
  0 <= i < Z.of_nat (length (DataTypes m))
  /\ id = UA_NODEID_NUMERIC (wrap_uint16 nsIndex) (wrap_uint32 (FreeNodeId m + 1))
  /\ DataTypes m'
     = <[Z.to_nat i :=
           mkDataType (Some name) id id (memSize builtin) (typeKind builtin)
                      (pointerFree builtin) (overlayable builtin)
                      (membersSize builtin)]> (DataTypes m).
Proof.
  destruct m as [F D U v sv al wr]. unfold addEnumerationDataType.
  run_monad. cbn.
  destruct sv as [s |]; [| discriminate]. cbn.
  destruct (customDataTypes (config s)); cbn;
    (destruct ((0 <=? U) && (U <? Z.of_nat (length D))) eqn:Hrange; cbn;
     [| discriminate]);
    (destruct (NDEBUG || _); [| discriminate]);
    intros [= <- <-]; cbn;
    apply andb_true_iff in Hrange; destruct Hrange as [H0 H1];
    apply Z.leb_le in H0; apply Z.ltb_lt in H1; auto.
Qed.

(** C5. When [addEnumerationDataType] returns an identifier, the entry of
    [DataTypes] it wrote is the built-in Enumeration descriptor with the
    name, the type identifier and the binary encoding identifier replaced:
    its name is the name given, its kind is that of Enumeration, and looking
    the identifier up returns it, no earlier entry carrying the identifier. *)
Theorem addEnumerationDataType_registers (nsIndex : Z) (name : string)
    (m m' : Mem Space) (id : UA_NodeId) :
  addEnumerationDataType NDEBUG nsIndex name m = Returns id m' ->
  let builtin := UA_TYPES UA_TYPES_ENUMERATION in
  let d := mkDataType (Some name) id id (memSize builtin) (typeKind builtin)
                      (pointerFree builtin) (overlayable builtin)
                      (membersSize builtin) in
  DataTypes m' !! Z.to_nat (UsedDataTypes m) = Some d
  /\ typeName d = Some name
  /\ typeId d = id
  /\ typeKind d = typeKind builtin
  /\ ((forall j d', (j < Z.to_nat (UsedDataTypes m))%nat ->
         DataTypes m !! j = Some d' -> typeId d' <> id) ->
      resolve m' id = Some d).
Proof.
  intros Hrun builtin d.
  destruct (addEnumerationDataType_returns _ _ _ _ _ Hrun) as (Hi & _ & Hdt).
  fold builtin in Hdt. fold d in Hdt.
  split; [| split; [| split; [| split]]]; try reflexivity.
  - rewrite Hdt. apply list_lookup_insert_eq. lia.
  - intros Hfresh. unfold resolve. rewrite Hdt.
    apply find_insert_first; [lia | apply UA_NodeId_equal_spec; reflexivity |].
    intros j x Hj Hx. specialize (Hfresh j x Hj Hx).
    destruct (UA_NodeId_equal (typeId x) id) eqn:Heq; [| reflexivity].
    apply UA_NodeId_equal_spec in Heq. contradiction.
Qed.

(** ** Functions that leave the registry alone *)

Lemma preinc_FreeNodeId_registry :
  keeps (Space := Space) (unchanged registry) preinc_FreeNodeId.
Proof. unfold preinc_FreeNodeId. keeps_unchanged. Qed.

Lemma addFolderNode_registry ns :
  keeps (unchanged registry) (addFolderNode NDEBUG ns).
Proof. unfold addFolderNode, preinc_FreeNodeId. keeps_unchanged. Qed.

Lemma addEnumValues_registry ns parent :
  keeps (unchanged registry) (addEnumValues NDEBUG ns parent).
Proof. unfold addEnumValues, preinc_FreeNodeId. keeps_unchanged. Qed.

Lemma addLocalizedText_registry ns parent :
  keeps (unchanged registry) (addLocalizedText NDEBUG ns parent).
Proof. unfold addLocalizedText, preinc_FreeNodeId. keeps_unchanged. Qed.

Lemma addVariableNode_registry heap ty ns name parent :
  keeps (unchanged registry) (addVariableNode NDEBUG heap ty ns name parent).
Proof. unfold addVariableNode, preinc_FreeNodeId. keeps_unchanged. Qed.

(** ** The writes of main to DataTypes *)

Lemma stage_unchanged k (m m' : Mem Space) :
  stage k m -> unchanged registry m m' -> stage k m'.
Proof.
  unfold stage, unchanged, registry. intros (Hw & Hu & Hl) [= -> -> ->]. auto.
Qed.

(** A computation that leaves the registry alone keeps the stage. *)
Lemma hoare_stage {A} (c : M A) k n :
  keeps (unchanged registry) c -> (k <= n)%nat ->
  hoare (stage k) c (fun _ => stage k) (upto n).
Proof.
  intros Hc Hkn m Hst. specialize (Hc m).
  destruct (c m) as [a m' | m' | m']; cbn in Hc.
  - eapply stage_unchanged; eauto.
  - exists k. split; [exact Hkn | eapply stage_unchanged; eauto].
  - exists k. split; [exact Hkn | eapply stage_unchanged; eauto].
Qed.

Lemma store_DataTypes_stage d k n :
  (k < 2)%nat -> (S k <= n)%nat ->
  hoare (Space := Space) (stage k) (store_DataTypes d)
        (fun _ => stage (S k)) (upto n).
Proof.
  intros Hk Hn m (Hw & Hu & Hl). destruct m as [F D U v sv al wr].
  cbn in Hw, Hu, Hl. subst wr U.
  run_monad. cbn. rewrite Hl.
  assert ((0 <=? Z.of_nat k) && (Z.of_nat k <? Z.of_nat 2) = true) as ->.
  { apply andb_true_iff. split; [apply Z.leb_le | apply Z.ltb_lt]; lia. }
  unfold stage. cbn -[seq]. rewrite length_insert.
  split; [| split; [| exact Hl]].
  - rewrite seq_S, map_app. reflexivity.
  - rewrite Z.mod_small; lia.
Qed.

Lemma addEnumerationDataType_stage ns name k n :
  (k < 2)%nat -> (S k <= n)%nat ->
  hoare (stage k) (addEnumerationDataType NDEBUG ns name)
        (fun _ => stage (S k)) (upto n).
Proof.
  intros Hk Hn. unfold addEnumerationDataType. cbv zeta.
  eapply hoare_bind;
    [apply hoare_stage; [apply preinc_FreeNodeId_registry | lia] | intros ?; cbv beta].
  eapply hoare_bind; [apply hoare_stage; [keeps_unchanged | lia] | intros ?; cbv beta].
  eapply hoare_bind; [apply hoare_stage; [keeps_unchanged | lia] | intros ?; cbv beta].
  eapply hoare_bind; [apply hoare_stage; [keeps_unchanged | lia] | intros ?; cbv beta].
  eapply hoare_bind; [apply store_DataTypes_stage; lia | intros ?; cbv beta].
  eapply hoare_bind; [apply hoare_stage; [keeps_unchanged | lia] | intros ?; cbv beta].
  eapply hoare_bind; [apply hoare_stage; [keeps_unchanged | lia] | intros ?; cbv beta].
  apply hoare_stage; [keeps_unchanged | lia].
Qed.

Lemma main_stages heap1 heap2 :
  hoare (stage 0) (main NDEBUG heap1 heap2) (fun _ => stage 2) (upto 2).
Proof.
  unfold main. cbv zeta.
  eapply hoare_bind; [apply hoare_stage; [keeps_unchanged | lia] | intros ?; cbv beta].
  eapply hoare_bind; [apply hoare_stage; [keeps_unchanged | lia] | intros ?; cbv beta].
  eapply hoare_bind;
    [apply hoare_stage; [apply addFolderNode_registry | lia] | intros ?; cbv beta].
  eapply hoare_bind; [apply addEnumerationDataType_stage; lia | intros ?; cbv beta].
  eapply hoare_bind;
    [apply hoare_stage; [apply addEnumValues_registry | lia] | intros ?; cbv beta].
  eapply hoare_bind;
    [apply hoare_stage; [apply addVariableNode_registry | lia] | intros ?; cbv beta].
  eapply hoare_bind; [apply addEnumerationDataType_stage; lia | intros ?; cbv beta].
  eapply hoare_bind;
    [apply hoare_stage; [apply addLocalizedText_registry | lia] | intros ?; cbv beta].
  eapply hoare_bind;
    [apply hoare_stage; [apply addVariableNode_registry | lia] | intros ?; cbv beta].
  apply hoare_stage; [keeps_unchanged | lia].
Qed.

(** C10. However the library calls of [main] end, [DataTypes] is written at
    index 0, then at index 1, and nowhere else: every index written is below
    the two elements of the array, and a run of [main] that returns has
    called [addEnumerationDataType] twice, writing at 0 and at 1. *)
Theorem main_writes_in_bounds (heap1 heap2 : bool) :
  let run := main NDEBUG heap1 heap2 initial_Mem in
  let w := written (final_Mem run) in
  (w = [] \/ w = [0] \/ w = [0; 1])
  /\ (forall i, In i w ->
        0 <= i < Z.of_nat (length (DataTypes (initial_Mem (Space := Space)))))
  /\ (forall r m', run = Returns r m' ->
        written m' = [0; 1] /\ UsedDataTypes m' = 2).
Proof.
  intros run w.
  pose proof (main_stages heap1 heap2 initial_Mem) as H.
  assert (stage 0 (initial_Mem (Space := Space))) as H0 by (repeat split).
  specialize (H H0). fold run in H.
  assert (upto 2 (final_Mem run)) as (j & Hj & Hw & Hu & Hl).
  { destruct run as [r m' | m' | m']; cbn; [exists 2%nat; split; [lia | exact H] | exact H ..]. }
  fold w in Hw.
  assert (w = [] \/ w = [0] \/ w = [0; 1]) as Hcases.
  { destruct j as [| [| [| j]]]; [auto | auto | auto | lia]. }
  split; [exact Hcases |]. split.
  - intros i Hi. cbn.
    destruct Hcases as [E | [E | E]]; rewrite E in Hi; cbn in Hi;
      intuition lia.
  - intros r m' Hrun. rewrite Hrun in H. destruct H as (Hw' & Hu' & _).
    split; [exact Hw' | exact Hu'].
Qed.

(** ** The identifiers handed out *)

Lemma preinc_then {B} (k : Z -> M B) :
  (forall v, keeps (unchanged allocator) (k v)) ->
  keeps one_more (preinc_FreeNodeId ≫= k).
Proof.
  intros Hk m. unfold one_more, preinc_FreeNodeId. run_monad. cbn.
  match goal with
  | |- allocator (final_Mem (k ?v ?m1)) = _ =>
      pose proof (Hk v m1) as H; unfold unchanged in H; rewrite H
  end.
  reflexivity.
Qed.

Lemma keeps_then_ret {A B} (R : Mem Space -> Mem Space -> Prop) (c : M A)
    (b : B) :
  keeps R c -> keeps R (c ≫= fun _ => mret b).
Proof.
  intros Hc m. specialize (Hc m). unfold mbind, M_bind.
  destruct (c m); exact Hc.
Qed.

Lemma keeps_defined_some {A B} (R : Mem Space -> Mem Space -> Prop)
    (o : option A) (a : A) (k : A -> M B) :
  o = Some a -> keeps R (k a) -> keeps R (defined o ≫= k).
Proof. intros -> Hk m. exact (Hk m). Qed.

(** Every call of a creating function evaluates [++FreeNodeId] once,
    however the call ends. *)
Lemma create_one_more (c : Creation) : keeps one_more (create NDEBUG c).
Proof.
  destruct c; cbn [create].
  - apply keeps_then_ret. unfold addFolderNode. cbv zeta.
    apply preinc_then. intros v. keeps_unchanged.
  - apply keeps_then_ret. unfold addEnumerationDataType. cbv zeta.
    apply preinc_then. intros v. unfold store_DataTypes. keeps_unchanged.
  - unfold addEnumValues. cbv zeta.
    eapply keeps_defined_some; [apply enumValues_value_eq |].
    apply preinc_then. intros v. keeps_unchanged.
  - unfold addLocalizedText. cbv zeta.
    eapply keeps_defined_some; [apply enumStrings_value_eq |].
    apply preinc_then. intros v. keeps_unchanged.
  - unfold addVariableNode. cbv zeta.
    apply preinc_then. intros v. keeps_unchanged.
Qed.

Lemma wrap_uint32_succ (f : Z) (j : nat) :
  wrap_uint32 (wrap_uint32 (f + 1) + Z.of_nat j)
  = wrap_uint32 (f + Z.of_nat (S j)).
Proof.
  unfold wrap_uint32. rewrite Z.add_mod_idemp_l by lia.
  f_equal. lia.
Qed.

(** A sequence of creations hands out the successors of the counter, one
    after the other, as many as calls were made. *)
Lemma creations_allocator (cs : list Creation) (m : Mem Space) :
  exists k : nat,
    (k <= length cs)%nat
    /\ allocated (final_Mem (creations NDEBUG cs m))
       = allocated m
         ++ map (fun j => wrap_uint32 (FreeNodeId m + Z.of_nat j)) (seq 1 k)
    /\ (forall m', creations NDEBUG cs m = Returns tt m' -> k = length cs).
Proof.
  revert m. induction cs as [| c cs IH]; intros m.
  - exists 0%nat. cbn. rewrite app_nil_r. auto.
  - pose proof (create_one_more c m) as Hone. unfold one_more, allocator in Hone.
    cbn [creations]. unfold mbind, M_bind.
    destruct (create NDEBUG c m) as [[] m1 | m1 | m1]; cbn in Hone;
      injection Hone as HF Hal.
    + destruct (IH m1) as (k & Hk & Halloc & Hret).
      exists (S k). split; [cbn; lia |]. split.
      * rewrite Halloc, Hal, HF, <- app_assoc. f_equal.
        cbn [seq map app]. f_equal.
        rewrite <- (seq_shift k 1), map_map.
        apply map_ext. intros j. apply wrap_uint32_succ.
      * intros m' Hm'. cbn. f_equal. eapply Hret, Hm'.
    + exists 1%nat. split; [cbn; lia |]. split; [exact Hal | discriminate].
    + exists 1%nat. split; [cbn; lia |]. split; [exact Hal | discriminate].
Qed.

Lemma handed_out_app (m m' : Mem Space) (l : list Z) :
  allocated m' = allocated m ++ l -> handed_out m m' = l.
Proof. intros H. unfold handed_out. rewrite H. apply drop_app_length. Qed.


(** ** More on readValue: the rotation in general *)

Lemma set_value_same (m : Mem Space) : set_value (value m) m = m.
Proof. destruct m. reflexivity. Qed.

Lemma rotate_succ (v : Z) (n : nat) :
  ((v + 1) mod ENUMVALUES_LEN + Z.of_nat n) mod ENUMVALUES_LEN
  = (v + Z.of_nat (S n)) mod ENUMVALUES_LEN.
Proof.
  unfold ENUMVALUES_LEN. rewrite Z.add_mod_idemp_l by lia. f_equal. lia.
Qed.

(** X1. Any number of successful reads in a row, from a counter within
    0..4: the k-th read hands out the Int32 scalar (counter + k) mod 5, and
    the reads leave the counter at (counter + number of reads) mod 5 and
    the rest of the state as it was. *)
Theorem reads_rotate (calls : list ReadArgs) (m : Mem Space) :
  Forall successful calls ->
  0 <= value m < ENUMVALUES_LEN ->
  exists rs,
    reads calls m
    = Returns rs
        (set_value ((value m + Z.of_nat (length calls)) mod ENUMVALUES_LEN) m)
    /\ map produced rs
       = map (fun k => Some (int32_scalar
                               ((value m + Z.of_nat k) mod ENUMVALUES_LEN)))
             (seq 1 (length calls)).
Proof.
  intros Hok. revert m.
  induction Hok as [| a calls [Hheap [dv Hdv]] _ IH]; intros m Hv.
  - exists []. cbn. split; [| reflexivity].
    rewrite Z.add_0_r, Z.mod_small by exact Hv.
    rewrite set_value_same. reflexivity.
  - remember (set_value ((value m + 1) mod ENUMVALUES_LEN) m) as m1 eqn:Hm1.
    assert (value m1 = (value m + 1) mod ENUMVALUES_LEN) as Hval1
      by (subst m1; reflexivity).
    assert (0 <= value m1 < ENUMVALUES_LEN) as Hv1.
    { rewrite Hval1. apply Z.mod_pos_bound. reflexivity. }
    destruct (IH m1 Hv1) as (rs & Hrs & Hvals).
    cbn [reads]. unfold mbind at 1, M_bind.
    rewrite (readValue_nonnull a dv m Hdv), Hheap.
    rewrite next_value_rotates by exact Hv. cbv zeta. rewrite <- Hm1. cbn.
    unfold mbind, M_bind. rewrite Hrs. cbn.
    eexists. split.
    + rewrite Hval1, rotate_succ. subst m1. reflexivity.
    + cbn [length seq map]. f_equal.
      rewrite Hvals, <- (seq_shift (length calls) 1), map_map.
      apply map_ext. intros k. rewrite Hval1, rotate_succ. reflexivity.
Qed.

(** X2. A read whose copy of the value fails still takes its turn in the
    rotation: it returns BADOUTOFMEMORY and leaves the object behind
    [dataValue] as it was, and the counter has moved on by one. *)
Theorem readValue_failed_copy (a : ReadArgs) (dv : UA_DataValue)
    (m : Mem Space) :
  r_dataValue a = Some dv ->
  r_heap a = false ->
  0 <= value m < ENUMVALUES_LEN ->
  readValue a m
  = Returns (UA_STATUSCODE_BADOUTOFMEMORY, Some dv)
            (set_value ((value m + 1) mod ENUMVALUES_LEN) m).
Proof.
  intros Hdv Hheap Hv.
  rewrite (readValue_nonnull a dv m Hdv), Hheap.
  rewrite next_value_rotates by exact Hv. cbn. destruct dv. reflexivity.
Qed.

(** X3. The counter counts the reads that come with an object to fill,
    whether their copy succeeds or not, and no others: after any sequence of
    reads from a counter within 0..4 it is (counter + number of such reads)
    mod 5, there is one result for each call, and nothing else of the state
    has changed. *)
Theorem reads_counter (calls : list ReadArgs) (m : Mem Space) :
  0 <= value m < ENUMVALUES_LEN ->
  exists rs,
    reads calls m
    = Returns rs
        (set_value
           ((value m + Z.of_nat (length (List.filter has_output calls)))
              mod ENUMVALUES_LEN) m)
    /\ length rs = length calls.
Proof.
  revert m. induction calls as [| a calls IH]; intros m Hv.
  - exists []. cbn. split; [| reflexivity].
    rewrite Z.add_0_r, Z.mod_small by exact Hv.
    rewrite set_value_same. reflexivity.
  - cbn [reads List.filter]. unfold mbind at 1, M_bind, has_output.
    destruct (r_dataValue a) as [dv |] eqn:Hdv.
    + remember (set_value ((value m + 1) mod ENUMVALUES_LEN) m) as m1 eqn:Hm1.
      assert (value m1 = (value m + 1) mod ENUMVALUES_LEN) as Hval1
        by (subst m1; reflexivity).
      assert (0 <= value m1 < ENUMVALUES_LEN) as Hv1.
      { rewrite Hval1. apply Z.mod_pos_bound. reflexivity. }
      destruct (IH m1 Hv1) as (rs & Hrs & Hlen).
      rewrite (readValue_nonnull a dv m Hdv).
      rewrite next_value_rotates by exact Hv. cbv zeta. rewrite <- Hm1.
      unfold mbind, M_bind. rewrite Hrs. cbn.
      eexists. split.
      * rewrite Hval1, rotate_succ. subst m1. reflexivity.
      * cbn. rewrite Hlen. reflexivity.
    + destruct (IH m Hv) as (rs & Hrs & Hlen).
      unfold readValue. rewrite Hdv. cbn.
      unfold mbind, M_bind. rewrite Hrs. cbn.
      eexists. split; [reflexivity |]. cbn. rewrite Hlen. reflexivity.
Qed.

(** ** More on the registry *)

(** How a call of [addEnumerationDataType] ends, and the state it leaves. *)
Lemma addEnumerationDataType_outcome (nsIndex : Z) (name : string)
    (m : Mem Space) (s : UA_Server Space) :
  server m = Some s ->
  let builtin := UA_TYPES UA_TYPES_ENUMERATION in
  let i := UsedDataTypes m in
  let id := UA_NODEID_NUMERIC (wrap_uint16 nsIndex)
                              (wrap_uint32 (FreeNodeId m + 1)) in
  let d := mkDataType (Some name) id id (memSize builtin) (typeKind builtin)
                      (pointerFree builtin) (overlayable builtin)
                      (membersSize builtin) in
  let counted m' :=
    allocator m' = (wrap_uint32 (FreeNodeId m + 1),
                    allocated m ++ [wrap_uint32 (FreeNodeId m + 1)])
    /\ UsedDataTypes m' = (i + 1) mod 2 ^ 64
    /\ written m' = written m ++ [i]
    /\ value m' = value m
    /\ serving m' in
  match addEnumerationDataType NDEBUG nsIndex name m with
  | Returns r m' =>
      0 <= i < Z.of_nat (length (DataTypes m)) /\ r = id
      /\ DataTypes m' = <[Z.to_nat i := d]> (DataTypes m) /\ counted m'
  | Aborted m' =>
      NDEBUG = false /\ 0 <= i < Z.of_nat (length (DataTypes m))
      /\ DataTypes m' = <[Z.to_nat i := d]> (DataTypes m) /\ counted m'
  | Undefined m' =>
      ~ 0 <= i < Z.of_nat (length (DataTypes m))
      /\ DataTypes m' = DataTypes m /\ counted m'
  end.
Proof.
  intros Hs. destruct m as [F D U v sv al wr]. cbn in Hs. subst sv.
  unfold addEnumerationDataType. run_monad. cbn.
  destruct (customDataTypes (config s)); cbn;
    (destruct ((0 <=? U) && (U <? Z.of_nat (length D))) eqn:Hrange; cbn;
     [ apply andb_true_iff in Hrange; destruct Hrange as [H0 H1];
       apply Z.leb_le in H0; apply Z.ltb_lt in H1;
       destruct (NDEBUG || _) eqn:Hassert; cbn;
       [| apply orb_false_iff in Hassert; destruct Hassert as [-> _]];
       unfold serving; cbn; repeat split; eauto; lia
     | apply andb_false_iff in Hrange;
       unfold serving; cbn; repeat split; eauto;
       destruct Hrange as [H | H];
       [apply Z.leb_gt in H | apply Z.ltb_ge in H]; lia ]).
Qed.

(** X4. With a server, [addEnumerationDataType] runs into undefined
    behaviour exactly when [UsedDataTypes] is not an index of [DataTypes]:
    the write is not guarded, so a registration beyond the two the array has
    room for writes past its end. *)
Theorem addEnumerationDataType_overrun (nsIndex : Z) (name : string)
    (m : Mem Space) (s : UA_Server Space) :
  server m = Some s ->
  (exists m', addEnumerationDataType NDEBUG nsIndex name m = Undefined m')
  <-> ~ 0 <= UsedDataTypes m < Z.of_nat (length (DataTypes m)).
Proof.
  intros Hs.
  pose proof (addEnumerationDataType_outcome nsIndex name m s Hs) as H.
  cbv zeta in H.
  destruct (addEnumerationDataType NDEBUG nsIndex name m) as [r m' | m' | m'].
  - split; [intros [m'' [=]] | intros Hout; tauto].
  - split; [intros [m'' [=]] | intros Hout; tauto].
  - split; [intros _; tauto | intros _; eauto].
Qed.

(** X5. Registration is not undone when the library refuses the node: when
    [addEnumerationDataType] aborts on its assertion, the descriptor is
    already in [DataTypes], [UsedDataTypes] has been incremented and an
    identifier has been used up. *)
Theorem addEnumerationDataType_aborted (nsIndex : Z) (name : string)
    (m m' : Mem Space) :
  addEnumerationDataType NDEBUG nsIndex name m = Aborted m' ->
  let builtin := UA_TYPES UA_TYPES_ENUMERATION in
  let id := UA_NODEID_NUMERIC (wrap_uint16 nsIndex)
                              (wrap_uint32 (FreeNodeId m + 1)) in
  NDEBUG = false
  /\ DataTypes m' !! Z.to_nat (UsedDataTypes m)
     = Some (mkDataType (Some name) id id (memSize builtin) (typeKind builtin)
                        (pointerFree builtin) (overlayable builtin)
                        (membersSize builtin))
  /\ UsedDataTypes m' = (UsedDataTypes m + 1) mod 2 ^ 64
  /\ FreeNodeId m' = wrap_uint32 (FreeNodeId m + 1).
Proof.
  intros Hrun builtin id.
  destruct (server m) as [s |] eqn:Hs.
  - pose proof (addEnumerationDataType_outcome nsIndex name m s Hs) as H.
    cbv zeta in H. rewrite Hrun in H.
    destruct H as (Hnd & Hi & Hdt & Halloc & Hused & _).
    injection Halloc as HF _.
    split; [exact Hnd |]. split; [| split; [| exact HF]].
    + rewrite Hdt. apply list_lookup_insert_eq. lia.
    + exact Hused.
  - exfalso. revert Hrun. destruct m as [F D U v sv al wr]. cbn in Hs. subst sv.
    unfold addEnumerationDataType. run_monad. cbn. discriminate.
Qed.

Lemma find_insert_other {A} (p : A -> bool) (l : list A) (i : nat) (d : A) :
  p d = false ->
  (forall x, l !! i = Some x -> p x = false) ->
  List.find p (<[i := d]> l) = List.find p l.
Proof.
  intros Hd. revert i. induction l as [| x l IH]; intros i Hold; [reflexivity |].
  destruct i as [| i]; cbn.
  - rewrite Hd, (Hold x) by reflexivity. reflexivity.
  - destruct (p x); [reflexivity |]. apply IH. intros y Hy. apply Hold, Hy.
Qed.

(** X6. A registration leaves the other identifiers alone: after
    [addEnumerationDataType] returns, the lookup of any identifier other than
    the new one gives what it gave before, unless the identifier was that of
    the entry the call has overwritten. *)
Theorem addEnumerationDataType_keeps_others (nsIndex : Z) (name : string)
    (m m' : Mem Space) (id id' : UA_NodeId) :
  addEnumerationDataType NDEBUG nsIndex name m = Returns id m' ->
  id' <> id ->
  (forall d0, DataTypes m !! Z.to_nat (UsedDataTypes m) = Some d0 ->
              typeId d0 <> id') ->
  resolve m' id' = resolve m id'.
Proof.
  intros Hrun Hne Hold.
  destruct (addEnumerationDataType_returns _ _ _ _ _ Hrun) as (_ & _ & Hdt).
  unfold resolve. rewrite Hdt. apply find_insert_other.
  - cbn. destruct (UA_NodeId_equal id id') eqn:Heq; [| reflexivity].
    apply UA_NodeId_equal_spec in Heq. congruence.
  - intros d0 Hd0. specialize (Hold d0 Hd0).
    destruct (UA_NodeId_equal (typeId d0) id') eqn:Heq; [| reflexivity].
    apply UA_NodeId_equal_spec in Heq. contradiction.
Qed.

(** ** More on the identifiers *)

Lemma wrap_uint16_int16 (z : Z) : wrap_uint16 (wrap_int16 z) = wrap_uint16 z.
Proof.
  unfold wrap_uint16, wrap_int16, wrap_signed.
  rewrite Zminus_mod_idemp_l. f_equal. lia.
Qed.

Lemma wrap_uint32_twice (z : Z) : wrap_uint32 (wrap_uint32 z) = wrap_uint32 z.
Proof. unfold wrap_uint32. apply Z.mod_mod. lia. Qed.

(** X7. The folder [addFolderNode] returns is in the namespace given, modulo
    2^16, although the index goes through a parameter of type [UA_Int16]
    (an index of 32768 or more is negative there); its numeric identifier is
    the counter plus one, modulo 2^32. The call uses up that identifier and
    leaves the registry of data types and the counter of [readValue] as they
    were. *)
Theorem addFolderNode_returns (nsIndex : Z) (m m' : Mem Space) (id : UA_NodeId) :
  addFolderNode NDEBUG nsIndex m = Returns id m' ->
  id = mkNodeId (nsIndex mod 2 ^ 16) ((FreeNodeId m + 1) mod 2 ^ 32)
  /\ FreeNodeId m' = identifier id
  /\ allocated m' = allocated m ++ [identifier id]
  /\ registry m' = registry m
  /\ value m' = value m.
Proof.
  intros Hrun.
  pose proof (addFolderNode_registry nsIndex m) as Hreg.
  rewrite Hrun in Hreg. cbn in Hreg.
  pose proof (create_one_more (NewFolderNode nsIndex) m) as Hone.
  cbn [create] in Hone. unfold mbind, M_bind, one_more in Hone.
  rewrite Hrun in Hone. cbn in Hone. injection Hone as HF Hal.
  assert (id = mkNodeId (nsIndex mod 2 ^ 16) ((FreeNodeId m + 1) mod 2 ^ 32)
          /\ value m' = value m) as [-> Hval].
  { revert Hrun. destruct m as [F D U v sv al wr].
    unfold addFolderNode. run_monad. cbn.
    destruct sv as [s |]; [| discriminate]. cbn.
    destruct (NDEBUG || _); [| discriminate].
    intros [= <- <-]. cbn. split; [| reflexivity].
    unfold UA_NODEID_NUMERIC.
    rewrite wrap_uint16_int16, wrap_uint32_twice. reflexivity. }
  cbn [identifier]. repeat split; assumption.
Qed.

Lemma mod_2_32_inj (f x y : Z) :
  0 <= x < 2 ^ 32 -> 0 <= y < 2 ^ 32 ->
  wrap_uint32 (f + x) = wrap_uint32 (f + y) -> x = y.
Proof.
  unfold wrap_uint32. intros Hx Hy Heq.
  assert ((x - y) mod 2 ^ 32 = 0) as Hdiv.
  { replace (x - y) with ((f + x) - (f + y)) by lia.
    rewrite Zminus_mod, Heq, Z.sub_diag. reflexivity. }
  apply Z.mod_divide in Hdiv; [| lia].
  destruct Hdiv as [c Hc]. nia.
Qed.

(** X8. The identifiers stay pairwise distinct beyond the point where they
    stop increasing: a sequence of at most 2^32 creations hands out no
    identifier twice, whatever the counter it starts from. *)
Theorem creations_distinct (cs : list Creation) (m : Mem Space) :
  Z.of_nat (length cs) <= 2 ^ 32 ->
  NoDup (handed_out m (final_Mem (creations NDEBUG cs m))).
Proof.
  intros Hlen.
  destruct (creations_allocator cs m) as (k & Hk & Halloc & _).
  apply handed_out_app in Halloc. rewrite Halloc.
  apply (NoDup_fmap_2_strong
           (fun j : nat => wrap_uint32 (FreeNodeId m + Z.of_nat j))).
  - intros x y Hx Hy Heq.
    apply elem_of_seq in Hx. apply elem_of_seq in Hy.
    assert (wrap_uint32 (FreeNodeId m + 1 + (Z.of_nat x - 1))
            = wrap_uint32 (FreeNodeId m + 1 + (Z.of_nat y - 1))) as Heq'.
    { replace (FreeNodeId m + 1 + (Z.of_nat x - 1))
        with (FreeNodeId m + Z.of_nat x) by lia.
      replace (FreeNodeId m + 1 + (Z.of_nat y - 1))
        with (FreeNodeId m + Z.of_nat y) by lia.
      exact Heq. }
    apply mod_2_32_inj in Heq'; lia.
  - apply NoDup_seq.
Qed.

(** ** The loops that fill the local arrays *)

Lemma string_of_uint_length (u : Decimal.uint) :
  length (list_ascii_of_string (NilEmpty.string_of_uint u))
  = Decimal.nb_digits u.
Proof. induction u; cbn; congruence. Qed.

Lemma two_digits_small (u : Decimal.uint) :
  (Decimal.nb_digits u <= 2)%nat -> (Pos.of_uint u < 100)%N.
Proof.
  intros H.
  destruct u as [| u | u | u | u | u | u | u | u | u | u]; cbn in H;
    try reflexivity;
    (destruct u as [| u | u | u | u | u | u | u | u | u | u]; cbn in H;
     try reflexivity;
     (assert (u = Decimal.Nil) as -> by (apply DecimalFacts.nb_digits_0; lia);
      reflexivity)).
Qed.

(** From 100 on, the decimal form of a number has three characters or
    more. *)
Lemma decimal_long (d : Z) :
  100 <= d -> (3 <= length (list_ascii_of_string (decimal d)))%nat.
Proof.
  intros Hd. destruct d as [| p | p]; [lia | | lia].
  unfold decimal. cbn [Z.to_int NilZero.string_of_int].
  pose proof (DecimalPos.Unsigned.of_to p) as Hround.
  pose proof (DecimalPos.Unsigned.to_uint_nonnil p) as Hnil.
  remember (Pos.to_uint p) as u eqn:Hu. clear Hu.
  assert (NilZero.string_of_uint u = NilEmpty.string_of_uint u) as ->
    by (destruct u; [contradiction | reflexivity ..]).
  rewrite string_of_uint_length.
  destruct (le_lt_dec 3 (Decimal.nb_digits u)) as [Hge | Hlt]; [exact Hge |].
  exfalso.
  assert (Decimal.nb_digits u <= 2)%nat as Hsmall by lia.
  apply two_digits_small in Hsmall. rewrite Hround in Hsmall. lia.
Qed.

(** [snprintf] runs past the array when the characters and the NUL do not
    fit behind the offset. *)
Lemma snprintf_d_overflow (buf : list ascii) (off size : nat) (d : Z) :
  (0 < size)%nat ->
  (length buf
   < off + Nat.min (size - 1) (length (list_ascii_of_string (decimal d))) + 1)%nat ->
  snprintf_d buf off size d = None.
Proof.
  intros Hsize Hlen. unfold snprintf_d.
  destruct (Nat.eqb_spec size 0) as [-> | _]; [lia |].
  rewrite length_app, length_take. cbn [length].
  destruct (Nat.leb_spec
              (off + (Nat.min (size - 1)
                        (length (list_ascii_of_string (decimal d))) + 1))
              (length buf)); [lia | reflexivity].
Qed.

Lemma wrap_signed_64_small (z : Z) : 0 <= z < 2 ^ 31 -> wrap_signed 64 z = z.
Proof. intros H. unfold wrap_signed. rewrite Z.mod_small; lia. Qed.

(** One round of each loop, for a counter that has at most two digits. *)
Lemma enumStrings_round_fits (i : Z) (arr : list (option UA_LocalizedText)) :
  0 <= i < 100 ->
  enumStrings_round i arr
  = array_set arr i (UA_LOCALIZEDTEXT_ALLOC "" ("EnumString " ++ decimal i)).
Proof.
  intros Hi.
  assert (forallb
            (fun i =>
               match snprintf_d (char_array "EnumString   ") 11
                                (length (char_array "EnumString   "))
                                (wrap_int32 i) with
               | Some b => String.eqb (cstring b) ("EnumString " ++ decimal i)
               | None => false
               end) (seqZ 0 100) = true) as Hall by (vm_compute; reflexivity).
  rewrite forallb_forall in Hall. specialize (Hall i).
  assert (In i (seqZ 0 100)) as Hin
    by (apply list_elem_of_In, elem_of_seqZ; lia).
  specialize (Hall Hin).
  unfold enumStrings_round.
  destruct (snprintf_d _ _ _ _) as [b |]; [| discriminate].
  apply String.eqb_eq in Hall. cbn. rewrite Hall. reflexivity.
Qed.

Lemma enumValues_round_fits (i : Z) (arr : list (option UA_EnumValueType)) :
  0 <= i < 100 ->
  enumValues_round i arr
  = array_set arr i
      (mkEnumValueType i
         (UA_LOCALIZEDTEXT_ALLOC "" ("EnumValue " ++ decimal i))
         (UA_LOCALIZEDTEXT_ALLOC "" ("Description " ++ decimal i))).
Proof.
  intros Hi.
  assert (forallb
            (fun i =>
               match snprintf_d (char_array "EnumValue   ") 10
                                (length (char_array "EnumValue   "))
                                (wrap_int32 i),
                     snprintf_d (char_array "Description   ") 12
                                (length (char_array "Description   "))
                                (wrap_int32 i) with
               | Some b, Some b' =>
                   String.eqb (cstring b) ("EnumValue " ++ decimal i)
                   && String.eqb (cstring b') ("Description " ++ decimal i)
               | _, _ => false
               end) (seqZ 0 100) = true) as Hall by (vm_compute; reflexivity).
  rewrite forallb_forall in Hall. specialize (Hall i).
  assert (In i (seqZ 0 100)) as Hin
    by (apply list_elem_of_In, elem_of_seqZ; lia).
  specialize (Hall Hin).
  unfold enumValues_round.
  destruct (snprintf_d (char_array "EnumValue   ") _ _ _) as [b |];
    [| discriminate].
  destruct (snprintf_d (char_array "Description   ") _ _ _) as [b' |];
    [| discriminate].
  apply andb_true_iff in Hall. destruct Hall as [Hb Hb'].
  apply String.eqb_eq in Hb. apply String.eqb_eq in Hb'.
  cbn. rewrite Hb, Hb', wrap_signed_64_small by lia. reflexivity.
Qed.

(** One round of each loop, for a counter of three digits or more: the
    text does not fit in what is left of its array. *)
Lemma enumStrings_round_overflows (i : Z) (arr : list (option UA_LocalizedText)) :
  100 <= i < 2 ^ 31 -> enumStrings_round i arr = None.
Proof.
  intros Hi. unfold enumStrings_round.
  rewrite snprintf_d_overflow; [reflexivity | cbn; lia |].
  rewrite wrap_int32_small by lia.
  pose proof (decimal_long i ltac:(lia)) as Hlong.
  change (length (char_array "EnumString   ")) with 14%nat. lia.
Qed.

Lemma enumValues_round_overflows (i : Z) (arr : list (option UA_EnumValueType)) :
  100 <= i < 2 ^ 31 -> enumValues_round i arr = None.
Proof.
  intros Hi. unfold enumValues_round.
  rewrite (snprintf_d_overflow (char_array "EnumValue   "));
    [reflexivity | cbn; lia |].
  rewrite wrap_int32_small by lia.
  pose proof (decimal_long i ltac:(lia)) as Hlong.
  change (length (char_array "EnumValue   ")) with 13%nat. lia.
Qed.

Lemma rounds_app {S} (a b : nat) (i : Z) (body : Z -> S -> option S) (s : S) :
  rounds (a + b) i body s
  = rounds a i body s ≫= rounds b (i + Z.of_nat a) body.
Proof.
  revert i s. induction a as [| a IH]; intros i s.
  - cbn. rewrite Z.add_0_r. reflexivity.
  - cbn [rounds Nat.add]. destruct (body i s) as [s' |]; [| reflexivity].
    cbn. rewrite IH. do 2 f_equal. lia.
Qed.

(** Rounds whose body writes element [i] fill the array from the counter
    on. *)
Lemma rounds_fill {A} (body : Z -> list (option A) -> option (list (option A)))
    (e : Z -> A) (lim : Z) :
  (forall i arr, 0 <= i < lim -> body i arr = array_set arr i (e i)) ->
  forall (n i : nat) (arr : list (option A)),
    (i + n <= length arr)%nat -> Z.of_nat (i + n) <= lim ->
    rounds n (Z.of_nat i) body arr
    = Some (take i arr
            ++ map (fun k => Some (e k)) (seqZ (Z.of_nat i) (Z.of_nat n))
            ++ drop (i + n) arr).
Proof.
  intros Hbody. induction n as [| n IH]; intros i arr Hlen Hlim.
  - cbn [rounds]. rewrite Nat.add_0_r, seqZ_nil by lia.
    cbn [map app]. rewrite take_drop. reflexivity.
  - cbn [rounds]. rewrite Hbody by lia. unfold array_set.
    assert ((0 <=? Z.of_nat i) && (Z.of_nat i <? Z.of_nat (length arr)) = true)
      as -> by (apply andb_true_iff; split;
                [apply Z.leb_le | apply Z.ltb_lt]; lia).
    cbn. rewrite Nat2Z.id.
    replace (Z.of_nat i + 1) with (Z.of_nat (S i)) by lia.
    rewrite IH by (rewrite ?length_insert; lia). f_equal.
    destruct (lookup_lt_is_Some_2 arr i ltac:(lia)) as [x Hx].
    rewrite (take_S_r _ _ (Some (e (Z.of_nat i))))
      by (apply list_lookup_insert_eq; lia).
    rewrite take_insert_ge by lia.
    rewrite drop_insert_lt by lia.
    rewrite (seqZ_cons (Z.of_nat i) (Z.of_nat (S n))) by lia.
    cbn [map]. rewrite <- app_assoc. cbn [app].
    replace (Z.succ (Z.of_nat i)) with (Z.of_nat (S i)) by lia.
    replace (Z.pred (Z.of_nat (S n))) with (Z.of_nat n) by lia.
    replace (i + S n)%nat with (S i + n)%nat by lia.
    reflexivity.
Qed.

(** A loop of [n] rounds over a local array of [n] elements, when the body
    writes element [i] for a counter below 100 and fails at 100. *)
Lemma loop_bounded {A} (body : Z -> list (option A) -> option (list (option A)))
    (e : Z -> A) :
  (forall i arr, 0 <= i < 100 -> body i arr = array_set arr i (e i)) ->
  (forall arr, body 100 arr = None) ->
  forall n, 0 <= n ->
    for_size_t n body (local_array A n)
    = if n <=? 100 then Some (map (fun k => Some (e k)) (seqZ 0 n)) else None.
Proof.
  intros Hfits Hover n Hn. unfold for_size_t, local_array.
  destruct (Z.leb_spec n 100) as [Hle | Hgt].
  - rewrite (rounds_fill body e 100 Hfits (Z.to_nat n) 0)
      by (rewrite ?length_replicate; lia).
    cbn [take app Nat.add]. rewrite Z2Nat.id by lia.
    rewrite drop_ge by (rewrite length_replicate; lia).
    rewrite app_nil_r. reflexivity.
  - replace (Z.to_nat n) with (100 + S (Z.to_nat n - 101))%nat at 1 by lia.
    rewrite rounds_app.
    rewrite (rounds_fill body e 100 Hfits 100 0)
      by (rewrite ?length_replicate; lia).
    cbn [mbind option_bind rounds]. rewrite Hover. reflexivity.
Qed.

(** X9. The loop of [addLocalizedText], for any length in place of
    [ENUMVALUES_LEN]: up to 100 elements it leaves no element of the array
    unwritten, element k being the text "EnumString k"; from 101 on it runs
    past the end of [text], which has room for two digits. *)
Theorem enumStrings_loop (n : Z) :
  0 <= n ->
  for_size_t n enumStrings_round (local_array UA_LocalizedText n)
  = if n <=? 100
    then Some (map (fun k => Some (UA_LOCALIZEDTEXT_ALLOC ""
                                     ("EnumString " ++ decimal k)))
                   (seqZ 0 n))
    else None.
Proof.
  apply (loop_bounded enumStrings_round
           (fun k => UA_LOCALIZEDTEXT_ALLOC "" ("EnumString " ++ decimal k))).
  - intros i arr Hi. apply enumStrings_round_fits, Hi.
  - intros arr. apply enumStrings_round_overflows. lia.
Qed.

(** X10. The loop of [addEnumValues], for any length in place of
    [ENUMVALUES_LEN]: up to 100 elements it leaves no element of the array
    unwritten, element k having the value k, the name "EnumValue k" and the
    description "Description k"; from 101 on it runs past the end of
    [name], which has room for two digits. *)
Theorem enumValues_loop (n : Z) :
  0 <= n ->
  for_size_t n enumValues_round (local_array UA_EnumValueType n)
  = if n <=? 100
    then Some (map (fun k => Some (mkEnumValueType k
                              (UA_LOCALIZEDTEXT_ALLOC "" ("EnumValue " ++ decimal k))
                              (UA_LOCALIZEDTEXT_ALLOC "" ("Description " ++ decimal k))))
                   (seqZ 0 n))
    else None.
Proof.
  apply (loop_bounded enumValues_round
           (fun k => mkEnumValueType k
                       (UA_LOCALIZEDTEXT_ALLOC "" ("EnumValue " ++ decimal k))
                       (UA_LOCALIZEDTEXT_ALLOC "" ("Description " ++ decimal k)))).
  - intros i arr Hi. apply enumValues_round_fits, Hi.
  - intros arr. apply enumValues_round_overflows. lia.
Qed.

(** ** main, for every library *)

Lemma total_bind {A B} (P : Mem Space -> Prop) (c : M A) (k : A -> M B)
    Q Q' E :
  total P c Q E -> (forall a, total (Q a) (k a) Q' E) ->
  total P (c ≫= k) Q' E.
Proof.
  intros Hc Hk m HP. specialize (Hc m HP). unfold mbind, M_bind.
  destruct (c m) as [a m' | m' | m']; auto. apply Hk, Hc.
Qed.

Lemma total_ret {A} (a : A) (P : Mem Space -> Prop) E :
  total P (mret a) (fun _ => P) E.
Proof. intros m HP. exact HP. Qed.

Lemma total_assert (c : bool) (P : Mem Space -> Prop) :
  total P (assert NDEBUG c) (fun _ => P) (NDEBUG = false).
Proof.
  intros m HP. unfold assert. destruct NDEBUG; [exact HP |].
  destruct c; [exact HP | reflexivity].
Qed.

Lemma total_defined {A} (o : option A) (P : Mem Space -> Prop) E :
  is_Some o -> total P (defined o) (fun _ => P) E.
Proof. intros [a ->] m HP. exact HP. Qed.

Lemma total_preinc E :
  total (Space := Space) serving preinc_FreeNodeId (fun _ => serving) E.
Proof. intros m HP. exact HP. Qed.

Lemma total_call {A} (f : UA_Server Space -> A * UA_Server Space) E :
  total serving (call f) (fun _ => serving) E.
Proof.
  intros m [s Hs]. unfold call. run_monad. rewrite Hs. cbn.
  eexists. reflexivity.
Qed.

Lemma reads_serving (calls : list ReadArgs) (m : Mem Space) :
  exists rs m', reads calls m = Returns rs m' /\ server m' = server m.
Proof.
  revert m. induction calls as [| a calls IH]; intros m.
  - eexists _, _. split; reflexivity.
  - cbn [reads]. unfold mbind at 1, M_bind.
    assert (exists r m1, readValue a m = Returns r m1 /\ server m1 = server m)
      as (r & m1 & -> & Hs1).
    { unfold readValue. destruct (r_dataValue a).
      - run_monad. cbn. destruct (_ >=? _); eexists _, _; split; reflexivity.
      - eexists _, _. split; reflexivity. }
    destruct (IH m1) as (rs & m' & Hrs & Hs').
    unfold mbind, M_bind. rewrite Hrs. cbn.
    eexists _, _. split; [reflexivity | congruence].
Qed.

Lemma total_call_with_reads {A}
    (f : UA_Server Space -> A * UA_Server Space * list ReadArgs) E :
  total serving (call_with_reads f) (fun _ => serving) E.
Proof.
  intros m [s Hs]. unfold call_with_reads.
  unfold mbind at 1, M_bind, get. unfold mbind at 1, M_bind.
  rewrite Hs. cbn [defined mret M_ret].
  unfold mbind at 1, M_bind.
  destruct (reads_serving (f s).2 m) as (rs & m' & -> & _).
  cbn. eexists. reflexivity.
Qed.

Ltac total_serving :=
  repeat first
    [ apply total_assert | apply total_call | apply total_call_with_reads
    | apply total_preinc | apply total_ret
    | eapply total_bind; [| intros ?; cbv beta] ].

Lemma addFolderNode_serving ns :
  total serving (addFolderNode NDEBUG ns) (fun _ => serving) (NDEBUG = false).
Proof. unfold addFolderNode. cbv zeta. total_serving. Qed.

Lemma addEnumValues_serving ns parent :
  total serving (addEnumValues NDEBUG ns parent) (fun _ => serving)
        (NDEBUG = false).
Proof.
  unfold addEnumValues. cbv zeta.
  eapply total_bind;
    [apply total_defined; rewrite enumValues_value_eq; eexists; reflexivity
    | intros ?; cbv beta].
  total_serving.
Qed.

Lemma addLocalizedText_serving ns parent :
  total serving (addLocalizedText NDEBUG ns parent) (fun _ => serving)
        (NDEBUG = false).
Proof.
  unfold addLocalizedText. cbv zeta.
  eapply total_bind;
    [apply total_defined; rewrite enumStrings_value_eq; eexists; reflexivity
    | intros ?; cbv beta].
  total_serving.
Qed.

Lemma addVariableNode_serving heap ty ns name parent :
  total serving (addVariableNode NDEBUG heap ty ns name parent)
        (fun _ => serving) (NDEBUG = false).
Proof. unfold addVariableNode. cbv zeta. total_serving. Qed.

Lemma wrap_uint16_twice (z : Z) : wrap_uint16 (wrap_uint16 z) = wrap_uint16 z.
Proof. unfold wrap_uint16. apply Z.mod_mod. lia. Qed.

Lemma addFolderNode_one_more ns : keeps one_more (addFolderNode NDEBUG ns).
Proof.
  unfold addFolderNode. cbv zeta. apply preinc_then. intros v. keeps_unchanged.
Qed.

(** A function that creates a node and leaves the registry alone takes
    [main] from one stage to the next. *)
Lemma step_neutral {A} (f : M A) (ns : Z) (k : nat) :
  total serving f (fun _ => serving) (NDEBUG = false) ->
  keeps (unchanged registry) f ->
  keeps one_more f ->
  registry_at ns (S k) = registry_at ns k ->
  (k < 7)%nat ->
  total (at_step ns k) f (fun _ => at_step ns (S k)) (NDEBUG = false).
Proof.
  intros Htot Hreg Hone Hsame Hk m (Hs & Ha & Hr).
  specialize (Htot m Hs). specialize (Hreg m). specialize (Hone m).
  destruct (f m) as [a m' | m' | m']; [| exact Htot | exact Htot].
  cbn in Hreg, Hone. unfold unchanged in Hreg. unfold one_more in Hone.
  injection Ha as HF Hal.
  split; [exact Htot |]. split.
  - rewrite Hone, HF, Hal. rewrite wrap_uint32_small by lia. f_equal; [lia |].
    rewrite seq_S, map_app. cbn [map]. do 2 f_equal. lia.
  - rewrite Hreg, Hr, Hsame. reflexivity.
Qed.

(** The two registrations of [main]. *)
Lemma step_register (ns : Z) (name : string) (k : nat) :
  (k = 1%nat /\ name = "CustomEnumValueType"%string)
  \/ (k = 4%nat /\ name = "CustomLocalizedTextType"%string) ->
  total (at_step ns k) (addEnumerationDataType NDEBUG ns name)
        (fun _ => at_step ns (S k)) (NDEBUG = false).
Proof.
  intros Hcase m ([s Hs] & Ha & Hr).
  pose proof (addEnumerationDataType_outcome ns name m s Hs) as Hout.
  cbv zeta in Hout.
  injection Ha as HF Hal. unfold registry in Hr.
  assert (wrap_uint32 (FreeNodeId m + 1) = 0x80000000 + Z.of_nat (S k)) as Hid.
  { rewrite HF, wrap_uint32_small by (destruct Hcase as [[-> _] | [-> _]]; lia).
    lia. }
  rewrite Hid in Hout.
  assert (UA_NODEID_NUMERIC (wrap_uint16 ns) (0x80000000 + Z.of_nat (S k))
          = nth_id ns (Z.of_nat (S k))) as Hnode.
  { unfold UA_NODEID_NUMERIC, nth_id. rewrite wrap_uint16_twice.
    rewrite wrap_uint32_small by (destruct Hcase as [[-> _] | [-> _]]; lia).
    reflexivity. }
  rewrite Hnode in Hout.
  destruct (addEnumerationDataType NDEBUG ns name m) as [r m' | m' | m'].
  - destruct Hout as (Hi & _ & Hdt & Halloc & Hused & Hw & _ & Hserv).
    split; [exact Hserv |]. split.
    + rewrite Halloc, Hal. f_equal.
      rewrite (seq_S k), map_app. reflexivity.
    + unfold registry. rewrite Hdt, Hused, Hw.
      destruct Hcase as [[-> ->] | [-> ->]]; cbn in Hr |- *;
        injection Hr as -> -> ->; reflexivity.
  - tauto.
  - destruct Hout as (Hi & _).
    destruct Hcase as [[-> ->] | [-> ->]]; cbn in Hr;
      injection Hr as HU _ HD; rewrite HU, HD in Hi; cbn in Hi; lia.
Qed.

(** X11. [main] for every library. With a server, the set-up never runs into
    undefined behaviour and aborts only on an assertion; when it returns,
    seven identifiers have been handed out, 0x80000001 to 0x80000007,
    [DataTypes] holds the descriptors of the two custom types under the
    second and the fifth of them, in the namespace [UA_Server_addNamespace]
    returned, and both resolve by identifier. *)
Theorem main_outcome (heap1 heap2 : bool) (s0 : UA_Server Space) :
  UA_Server_new = Some s0 ->
  let ns := (UA_Server_addNamespace s0 "http://yourorganisation.org/test/").1 in
  let ty2 := custom_enum "CustomEnumValueType" (nth_id ns 2) in
  let ty5 := custom_enum "CustomLocalizedTextType" (nth_id ns 5) in
  match main NDEBUG heap1 heap2 initial_Mem with
  | Returns r m' =>
      r = 0
      /\ allocated m' = map (fun j => 0x80000000 + j) [1; 2; 3; 4; 5; 6; 7]
      /\ FreeNodeId m' = 0x80000007
      /\ DataTypes m' = [ty2; ty5]
      /\ UsedDataTypes m' = 2
      /\ resolve m' (nth_id ns 2) = Some ty2
      /\ resolve m' (nth_id ns 5) = Some ty5
  | Aborted _ => NDEBUG = false
  | Undefined _ => False
  end.
Proof.
  intros Hnew ns ty2 ty5.
  assert (total (eq initial_Mem) (main NDEBUG heap1 heap2)
                (fun r m' => r = 0 /\ at_step ns 7 m') (NDEBUG = false)) as Hmain.
  { unfold main. rewrite Hnew. cbv zeta.
    eapply (total_bind _ _ _
              (fun _ m => m = set_server (Some s0) initial_Mem)).
    { intros m <-. reflexivity. }
    intros _.
    eapply (total_bind _ _ _
              (fun r m => r = (UA_Server_addNamespace s0
                                 "http://yourorganisation.org/test/").1
                          /\ at_step (wrap_uint16 r) 0 m)).
    { intros m ->. cbn. split; [reflexivity |].
      split; [eexists; reflexivity |]. split; reflexivity. }
    intros raw m [-> Hstart]. revert m Hstart.
    change (total (at_step (wrap_uint16 ns) 0)
              (parentNodeId ← addFolderNode NDEBUG (wrap_uint16 ns);
               enumValueType ← addEnumerationDataType NDEBUG (wrap_uint16 ns)
                                 "CustomEnumValueType";
               addEnumValues NDEBUG (wrap_uint16 ns) enumValueType;;
               addVariableNode NDEBUG heap1 enumValueType (wrap_uint16 ns)
                 "EnumValueTypeVariable" parentNodeId;;
               enumLocalizedText ← addEnumerationDataType NDEBUG (wrap_uint16 ns)
                                     "CustomLocalizedTextType";
               addLocalizedText NDEBUG (wrap_uint16 ns) enumLocalizedText;;
               addVariableNode NDEBUG heap2 enumLocalizedText (wrap_uint16 ns)
                 "LocalizedTextVariable" parentNodeId;;
               mret 0)
              (fun r m' => r = 0 /\ at_step ns 7 m') (NDEBUG = false)).
    eapply total_bind;
      [apply step_neutral;
       [apply addFolderNode_serving | apply addFolderNode_registry
       | apply addFolderNode_one_more | reflexivity | lia]
      | intros parent; cbv beta].
    eapply total_bind; [apply step_register; auto | intros t1; cbv beta].
    eapply total_bind;
      [apply step_neutral;
       [apply addEnumValues_serving | apply addEnumValues_registry
       | exact (create_one_more (NewEnumValues _ _)) | reflexivity | lia]
      | intros ?; cbv beta].
    eapply total_bind;
      [apply step_neutral;
       [apply addVariableNode_serving | apply addVariableNode_registry
       | exact (create_one_more (NewVariableNode _ _ _ _ _)) | reflexivity | lia]
      | intros ?; cbv beta].
    eapply total_bind; [apply step_register; auto | intros t2; cbv beta].
    eapply total_bind;
      [apply step_neutral;
       [apply addLocalizedText_serving | apply addLocalizedText_registry
       | exact (create_one_more (NewLocalizedText _ _)) | reflexivity | lia]
      | intros ?; cbv beta].
    eapply total_bind;
      [apply step_neutral;
       [apply addVariableNode_serving | apply addVariableNode_registry
       | exact (create_one_more (NewVariableNode _ _ _ _ _)) | reflexivity | lia]
      | intros ?; cbv beta].
    intros m Hm. cbn. split; [reflexivity |].
    destruct Hm as (Hs & Ha & Hr). split; [exact Hs |].
    split; [exact Ha |]. rewrite Hr. unfold registry_at, nth_id.
    rewrite wrap_uint16_twice. reflexivity. }
  specialize (Hmain initial_Mem eq_refl).
  destruct (main NDEBUG heap1 heap2 initial_Mem) as [r m' | m' | m'];
    [| exact Hmain | exact Hmain].
  destruct Hmain as (-> & _ & Ha & Hr).
  injection Ha as HF Hal. unfold registry in Hr. cbn in Hr.
  injection Hr as HU _ HD. fold ty2 ty5 in HD.
  split; [reflexivity |]. split; [exact Hal |]. split; [exact HF |].
  split; [exact HD |]. split; [exact HU |].
  unfold resolve. rewrite HD. cbn [List.find].
  assert (UA_NodeId_equal (nth_id ns 2) (nth_id ns 2) = true) as E22
    by (apply UA_NodeId_equal_spec; reflexivity).
  assert (UA_NodeId_equal (nth_id ns 5) (nth_id ns 5) = true) as E55
    by (apply UA_NodeId_equal_spec; reflexivity).
  assert (UA_NodeId_equal (nth_id ns 2) (nth_id ns 5) = false) as E25.
  { unfold UA_NodeId_equal, nth_id. cbn. apply andb_false_r. }
  subst ty2 ty5. cbn [typeId custom_enum]. rewrite E22, E25, E55.
  split; reflexivity.
Qed.

(** ** The five creating functions together *)

(** X12. Every call of a creating function uses up exactly one identifier,
    the counter plus one modulo 2^32, however the call ends: also a call
    that aborts, or one whose node the library refuses, has advanced
    [FreeNodeId]. *)
Theorem create_uses_one_identifier (c : Creation) (m : Mem Space) :
  let m' := final_Mem (create NDEBUG c m) in
  FreeNodeId m' = (FreeNodeId m + 1) mod 2 ^ 32
  /\ allocated m' = allocated m ++ [(FreeNodeId m + 1) mod 2 ^ 32].
Proof.
  pose proof (create_one_more c m) as H. unfold one_more, allocator in H.
  injection H as HF Hal. split; assumption.
Qed.

Lemma create_registry (c : Creation) :
  is_registration c = false -> keeps (unchanged registry) (create NDEBUG c).
Proof.
  destruct c; cbn [is_registration create]; intros Hc; try discriminate.
  - apply keeps_bind; [apply addFolderNode_registry | intros _; apply keeps_ret].
  - apply addEnumValues_registry.
  - apply addLocalizedText_registry.
  - apply addVariableNode_registry.
Qed.

(** X13. Only [addEnumerationDataType] touches the registry: a call of any
    of the other four creating functions leaves [DataTypes] and
    [UsedDataTypes] as they were, however it ends. *)
Theorem create_leaves_registry (c : Creation) (m : Mem Space) :
  is_registration c = false ->
  let m' := final_Mem (create NDEBUG c m) in
  DataTypes m' = DataTypes m /\ UsedDataTypes m' = UsedDataTypes m.
Proof.
  intros Hc. pose proof (create_registry c Hc m) as H.
  unfold unchanged, registry in H. injection H as HU _ HD. split; assumption.
Qed.

Lemma create_serving (c : Creation) :
  is_registration c = false ->
  total serving (create NDEBUG c) (fun _ => serving) (NDEBUG = false).
Proof.
  destruct c; cbn [is_registration create]; intros Hc; try discriminate.
  - eapply total_bind; [apply addFolderNode_serving | intros ?; apply total_ret].
  - apply addEnumValues_serving.
  - apply addLocalizedText_serving.
  - apply addVariableNode_serving.
Qed.

(** X14. How the creating functions can be called safely: with a server,
    and as long as the registrations among the calls fit in what is left of
    the two elements of [DataTypes], a sequence of creations in any order
    does not run into undefined behaviour; it aborts only on an assertion,
    so not at all with [NDEBUG]. *)
Theorem creations_defined (cs : list Creation) (m : Mem Space) :
  serving m ->
  length (DataTypes m) = 2%nat ->
  0 <= UsedDataTypes m ->
  UsedDataTypes m + Z.of_nat (length (List.filter is_registration cs)) <= 2 ->
  match creations NDEBUG cs m with
  | Returns _ m' =>
      serving m'
      /\ UsedDataTypes m'
         = UsedDataTypes m + Z.of_nat (length (List.filter is_registration cs))
  | Aborted _ => NDEBUG = false
  | Undefined _ => False
  end.
Proof.
  revert m. induction cs as [| c cs IH]; intros m Hs Hlen H0 Hfit.
  - cbn. split; [exact Hs | lia].
  - cbn [creations]. unfold mbind, M_bind.
    cbn [List.filter] in Hfit |- *.
    destruct (is_registration c) eqn:Hc.
    + destruct c; try discriminate. cbn [create]. cbn [length] in Hfit |- *.
      destruct Hs as [s Hs].
      pose proof (addEnumerationDataType_outcome nsIndex name m s Hs) as Hout.
      cbv zeta in Hout. unfold mbind, M_bind.
      destruct (addEnumerationDataType NDEBUG nsIndex name m) as [r m1 | m1 | m1].
      * destruct Hout as (Hi & _ & Hdt & _ & Hused & _ & _ & Hs1).
        cbn. rewrite Z.mod_small in Hused by lia.
        assert (length (DataTypes m1) = 2%nat) as Hlen1
          by (rewrite Hdt, length_insert; exact Hlen).
        specialize (IH m1 Hs1 Hlen1 ltac:(lia) ltac:(lia)).
        destruct (creations NDEBUG cs m1) as [[] m' | m' | m']; [| exact IH ..].
        destruct IH as [Hs' HU']. split; [exact Hs' | lia].
      * tauto.
      * destruct Hout as (Hi & _). lia.
    + pose proof (create_serving c Hc m Hs) as Htot.
      pose proof (create_registry c Hc m) as Hreg.
      destruct (create NDEBUG c m) as [[] m1 | m1 | m1]; [| exact Htot ..].
      cbn in Hreg. unfold unchanged, registry in Hreg.
      injection Hreg as HU _ HD.
      specialize (IH m1 Htot ltac:(congruence) ltac:(lia) ltac:(lia)).
      destruct (creations NDEBUG cs m1) as [[] m' | m' | m']; [| exact IH ..].
      destruct IH as [Hs' HU']. split; [exact Hs' | lia].
Qed.

End Properties.

(** * The example on the model of the address space *)







(** ** main on the model *)

(** On the model [main] returns: seven identifiers are handed out, the two
    custom types are written at indexes 0 and 1 of [DataTypes], and both
    resolve to descriptors of kind Enumeration carrying their names. *)
Lemma main_on_model :
  exists m',
    main (API := AddressSpace.api) false true true initial_Mem = Returns 0 m'
    /\ allocated m' = map (fun j => 0x80000000 + j) [1; 2; 3; 4; 5; 6; 7]
    /\ written m' = [0; 1]
    /\ (typeName <$> resolve m' (mkNodeId 1 0x80000002)
        = Some (Some "CustomEnumValueType"%string))
    /\ (typeName <$> resolve m' (mkNodeId 1 0x80000005)
        = Some (Some "CustomLocalizedTextType"%string))
    /\ (typeKind <$> resolve m' (mkNodeId 1 0x80000005)
        = Some UA_DATATYPEKIND_ENUM).
Proof. eexists. split; [vm_compute; reflexivity |]. repeat split. Qed.

(** On the model, the node [addLocalizedText] adds declares one dimension of
    length 0 and stores the five entries of [enumStrings_value]. *)
Lemma addLocalizedText_on_model :
  exists m' s' v,
    addLocalizedText (API := AddressSpace.api) false 1 (mkNodeId 0 UA_NS0ID_ENUMERATION)
                     model_start
    = Returns tt m'
    /\ server m' = Some s'
    /\ enumStrings_value = Some v
    /\ last (AddressSpace.nodes (space s'))
       = Some (AddressSpace.VariableNode (mkNodeId 1 0x80000001)
                 (UA_QUALIFIEDNAME 0 "EnumStrings")
                 (mkNodeId 0 UA_NS0ID_LOCALIZEDTEXT) [0]
                 UA_ACCESSLEVELMASK_READ (AddressSpace.Stored v)).
Proof.
  eexists _, _, _. split; [vm_compute; reflexivity |].
  split; [reflexivity |]. split; [vm_compute; reflexivity |]. reflexivity.
Qed.

(** ** The theorems at concrete inputs *)

Lemma reads_seven_from_zero_witness :
  exists rs m',
    reads (replicate 7 a_read) model_start = Returns rs m'
    /\ Forall (fun r => r.1 = UA_STATUSCODE_GOOD) rs
    /\ map produced rs
       = map (fun z => Some (int32_scalar z)) [1; 2; 3; 4; 0; 1; 2].
Proof.
  apply (reads_seven_from_zero (replicate 7 a_read) model_start).
  - reflexivity.
  - repeat (constructor; [split; [reflexivity | eexists; reflexivity] |]).
    constructor.
  - reflexivity.
Defined.

Lemma readValue_null_witness :
  readValue a_null_read model_start
  = Returns (UA_STATUSCODE_BADNOTFOUND, None) model_start
  /\ value (final_Mem (readValue a_null_read model_start)) = value model_start.
Proof. apply (readValue_null a_null_read model_start). reflexivity. Defined.

Lemma readValue_confined_witness :
  exists out m',
    readValue a_read model_start
    = Returns (if r_heap a_read then UA_STATUSCODE_GOOD
               else UA_STATUSCODE_BADOUTOFMEMORY, Some out) m'
    /\ m' = set_value (value m') model_start
    /\ (0 <= value model_start < ENUMVALUES_LEN ->
        value m' = (value model_start + 1) mod ENUMVALUES_LEN
        /\ 0 <= value m' < ENUMVALUES_LEN)
    /\ (r_heap a_read = true ->
        out = mkDataValue (int32_scalar (value m')) (r_now a_read) true false)
    /\ (r_heap a_read = false ->
        out = mkDataValue UA_Variant_empty 0 false false).
Proof.
  apply (readValue_confined a_read (mkDataValue UA_Variant_empty 0 false false)
                            model_start).
  reflexivity.
Defined.

(** A read whose copy fails hands out no Int32 scalar: the object behind
    [dataValue], empty before the call, is empty after it. *)
Lemma readValue_failed_copy_no_value :
  ~ exists r m' z,
      readValue a_failed_read model_start = Returns r m'
      /\ dv_value <$> r.2 = Some (int32_scalar z).
Proof.
  intros (r & m' & z & Hrun & Hval).
  vm_compute in Hrun. injection Hrun as <- _.
  vm_compute in Hval. discriminate.
Qed.

Lemma addEnumerationDataType_registers_witness :
  exists id m',
    addEnumerationDataType (API := AddressSpace.api) false 1
                           "CustomLocalizedTextType" model_with_type
    = Returns id m'
    /\ id = mkNodeId 1 0x80000003
    /\ UsedDataTypes model_with_type = 1
    /\ resolve m' id
       = Some (mkDataType (Some "CustomLocalizedTextType"%string) id id 4
                          UA_DATATYPEKIND_ENUM true true 0).
Proof.
  eexists _, _. split; [vm_compute; reflexivity |]. split; [reflexivity |].
  split; [reflexivity |].
  refine (proj2 (proj2 (proj2 (proj2
    (addEnumerationDataType_registers (API := AddressSpace.api) false 1
       "CustomLocalizedTextType" model_with_type _ _ _)))) _).
  - vm_compute. reflexivity.
  - intros j d' Hj Hd'. vm_compute in Hj.
    destruct j as [| j]; [| lia].
    vm_compute in Hd'. injection Hd' as <-. discriminate.
Defined.

(** With [NDEBUG], folders are created one after the other whatever the
    library returns; the registry stays as it was and the counter moves on
    modulo 2^32. *)
Lemma ndebug_folders {Space : Type} {API : ServerAPI Space} (ns : Z) (n : nat)
    (m : Mem Space) :
  serving m -> 0 <= FreeNodeId m < 2 ^ 32 ->
  exists m',
    creations true (replicate n (NewFolderNode ns)) m = Returns tt m'
    /\ serving m'
    /\ registry m' = registry m
    /\ FreeNodeId m' = wrap_uint32 (FreeNodeId m + Z.of_nat n).
Proof.
  revert m. induction n as [| n IH]; intros m Hs HF.
  - exists m. cbn. repeat split; [exact Hs |].
    rewrite Z.add_0_r, wrap_uint32_small by exact HF. reflexivity.
  - cbn [replicate creations]. unfold mbind, M_bind.
    pose proof (create_serving true (NewFolderNode ns) eq_refl m Hs) as Ht.
    pose proof (create_registry true (NewFolderNode ns) eq_refl m) as Hr.
    pose proof (create_one_more true (NewFolderNode ns) m) as Ho.
    destruct (create true (NewFolderNode ns) m) as [[] m1 | m1 | m1];
      [| discriminate Ht | contradiction].
    cbn in Hr, Ho. unfold unchanged in Hr. unfold one_more, allocator in Ho.
    injection Ho as HF1 _.
    assert (0 <= FreeNodeId m1 < 2 ^ 32) as HF1r.
    { rewrite HF1. unfold wrap_uint32. apply Z.mod_pos_bound. lia. }
    destruct (IH m1 Ht HF1r) as (m' & Hrun & Hs' & Hreg & HF').
    exists m'. split; [exact Hrun |]. split; [exact Hs' |].
    split; [congruence |].
    rewrite HF', HF1. apply wrap_uint32_succ.
Qed.

Lemma wrapped_registration (N : nat) :
  Z.of_nat N = 2 ^ 32 - 1 ->
  let m := final_Mem
             (creations (API := AddressSpace.api) true
                (NewEnumerationDataType 1 "First"
                 :: replicate N (NewFolderNode 1)) model_start) in
  exists id m',
    addEnumerationDataType (API := AddressSpace.api) true 1 "Second" m
    = Returns id m'
    /\ typeName <$> resolve m' id = Some (Some "First"%string).
Proof.
  intros HN.
  assert (create (API := AddressSpace.api) true
                 (NewEnumerationDataType 1 "First") model_start
          = Returns tt model_first) as Hfirst by (vm_compute; reflexivity).
  assert (serving model_first) as Hs1 by (eexists; reflexivity).
  assert (FreeNodeId model_first = 0x80000001) as HF0
    by (vm_compute; reflexivity).
  assert (0 <= FreeNodeId model_first < 2 ^ 32) as HF1
    by (rewrite HF0; lia).
  destruct (ndebug_folders (API := AddressSpace.api) 1 N model_first Hs1 HF1)
    as (m2 & Hrun & [s Hs2] & Hreg & HF2).
  cbn [creations]. unfold mbind at 1, M_bind. rewrite Hfirst, Hrun.
  cbn [final_Mem].
  assert (FreeNodeId m2 = 0x80000000) as HF.
  { rewrite HF2, HN. reflexivity. }
  assert (UsedDataTypes m2 = 1
          /\ DataTypes m2
             = [custom_enum (API := AddressSpace.api) "First"
                            (mkNodeId 1 0x80000001);
                UA_DataType_zero]) as [HU HD].
  { unfold registry in Hreg. injection Hreg as -> _ ->. split; reflexivity. }
  pose proof (addEnumerationDataType_outcome (API := AddressSpace.api) true
                1 "Second" m2 s Hs2) as Hout.
  cbv zeta in Hout. rewrite HF, HU, HD in Hout.
  destruct (addEnumerationDataType true 1 "Second" m2) as [r m' | m' | m'].
  - destruct Hout as (_ & -> & Hdt & _).
    eexists _, _. split; [reflexivity |].
    unfold resolve. rewrite Hdt. reflexivity.
  - destruct Hout as [Hnd _]. discriminate Hnd.
  - destruct Hout as [Hout _]. exfalso. apply Hout. cbn. lia.
Qed.

(** The round trip fails once the counter has come round: a first type is
    registered, 2^32 - 1 folders are created, and the second type gets the
    identifier of the first; looking it up gives the first type. *)
Lemma addEnumerationDataType_wrap_resolves_old :
  let m := final_Mem
             (creations (API := AddressSpace.api) true
                (NewEnumerationDataType 1 "First"
                 :: replicate (Z.to_nat (2 ^ 32 - 1)) (NewFolderNode 1))
                model_start) in
  exists id m',
    addEnumerationDataType (API := AddressSpace.api) true 1 "Second" m
    = Returns id m'
    /\ typeName <$> resolve m' id = Some (Some "First"%string).
Proof. apply wrapped_registration. apply Z2Nat.id. discriminate. Qed.




(** ** Further theorems at concrete inputs *)

Lemma reads_rotate_witness :
  exists rs,
    reads [a_read; a_read; a_read] model_start
    = Returns rs
        (set_value ((value model_start + Z.of_nat 3) mod ENUMVALUES_LEN)
                   model_start)
    /\ map produced rs
       = map (fun k => Some (int32_scalar
                               ((value model_start + Z.of_nat k)
                                  mod ENUMVALUES_LEN)))
             (seq 1 3).
Proof.
  apply (reads_rotate [a_read; a_read; a_read] model_start).
  - repeat (constructor; [split; [reflexivity | eexists; reflexivity] |]).
    constructor.
  - cbn. unfold ENUMVALUES_LEN. lia.
Defined.

Lemma readValue_failed_copy_witness :
  readValue a_failed_read model_start
  = Returns (UA_STATUSCODE_BADOUTOFMEMORY,
             Some (mkDataValue UA_Variant_empty 0 false false))
            (set_value ((value model_start + 1) mod ENUMVALUES_LEN) model_start).
Proof.
  apply (readValue_failed_copy a_failed_read
           (mkDataValue UA_Variant_empty 0 false false) model_start).
  - reflexivity.
  - reflexivity.
  - cbn. unfold ENUMVALUES_LEN. lia.
Defined.

Lemma reads_counter_witness :
  exists rs,
    reads [a_read; a_null_read; a_failed_read] model_start
    = Returns rs
        (set_value
           ((value model_start
             + Z.of_nat (length (List.filter has_output
                                   [a_read; a_null_read; a_failed_read])))
              mod ENUMVALUES_LEN) model_start)
    /\ length rs = 3%nat.
Proof.
  apply (reads_counter [a_read; a_null_read; a_failed_read] model_start).
  cbn. unfold ENUMVALUES_LEN. lia.
Defined.

Lemma addEnumerationDataType_overrun_witness :
  (exists m', addEnumerationDataType (API := AddressSpace.api) false 1
                "ThirdType" model_after_main = Undefined m')
  <-> ~ 0 <= UsedDataTypes model_after_main
          < Z.of_nat (length (DataTypes model_after_main)).
Proof.
  eapply (addEnumerationDataType_overrun (API := AddressSpace.api) false 1
            "ThirdType" model_after_main).
  vm_compute. reflexivity.
Defined.

Lemma addEnumerationDataType_aborted_witness :
  exists m',
    addEnumerationDataType (API := AddressSpace.api) false 1
                           "CustomEnumValueType" model_with_type
    = Aborted m'
    /\ UsedDataTypes m' = (UsedDataTypes model_with_type + 1) mod 2 ^ 64
    /\ FreeNodeId m' = wrap_uint32 (FreeNodeId model_with_type + 1).
Proof.
  eexists. split; [vm_compute; reflexivity |].
  refine (proj2 (proj2
    (addEnumerationDataType_aborted (API := AddressSpace.api) false 1
       "CustomEnumValueType" model_with_type _ _))).
  vm_compute. reflexivity.
Defined.

Lemma addEnumerationDataType_keeps_others_witness :
  exists id m',
    addEnumerationDataType (API := AddressSpace.api) false 1
                           "CustomLocalizedTextType" model_with_type
    = Returns id m'
    /\ resolve m' (mkNodeId 1 0x80000002)
       = resolve model_with_type (mkNodeId 1 0x80000002).
Proof.
  eexists _, _. split; [vm_compute; reflexivity |].
  eapply (addEnumerationDataType_keeps_others (API := AddressSpace.api) false 1
            "CustomLocalizedTextType" model_with_type).
  - vm_compute. reflexivity.
  - discriminate.
  - intros d0 Hd0. vm_compute in Hd0. injection Hd0 as <-. discriminate.
Defined.

Lemma addFolderNode_returns_witness :
  exists id m',
    addFolderNode (API := AddressSpace.api) false 40000 model_start
    = Returns id m'
    /\ id = mkNodeId (40000 mod 2 ^ 16) ((FreeNodeId model_start + 1) mod 2 ^ 32).
Proof.
  eexists _, _. split; [vm_compute; reflexivity |].
  refine (proj1
    (addFolderNode_returns (API := AddressSpace.api) false 40000 model_start
       _ _ _)).
  vm_compute. reflexivity.
Defined.

Lemma creations_distinct_witness :
  NoDup (handed_out model_start
           (final_Mem (creations (API := AddressSpace.api) false
                                 creations_of_main model_start))).
Proof.
  apply (creations_distinct (API := AddressSpace.api) false creations_of_main
                            model_start).
  cbn. lia.
Defined.

Lemma enumStrings_loop_witness :
  for_size_t 5 enumStrings_round (local_array UA_LocalizedText 5)
  = if 5 <=? 100
    then Some (map (fun k => Some (UA_LOCALIZEDTEXT_ALLOC ""
                                     ("EnumString " ++ decimal k)))
                   (seqZ 0 5))
    else None.
Proof. apply (enumStrings_loop 5). lia. Defined.

Lemma enumValues_loop_witness :
  for_size_t 101 enumValues_round (local_array UA_EnumValueType 101)
  = if 101 <=? 100
    then Some (map (fun k => Some (mkEnumValueType k
                              (UA_LOCALIZEDTEXT_ALLOC "" ("EnumValue " ++ decimal k))
                              (UA_LOCALIZEDTEXT_ALLOC "" ("Description " ++ decimal k))))
                   (seqZ 0 101))
    else None.
Proof. apply (enumValues_loop 101). lia. Defined.

Lemma main_outcome_witness :
  match main (API := AddressSpace.api) false true false initial_Mem with
  | Returns r m' =>
      r = 0
      /\ allocated m' = map (fun j => 0x80000000 + j) [1; 2; 3; 4; 5; 6; 7]
      /\ FreeNodeId m' = 0x80000007
      /\ DataTypes m'
         = [custom_enum (API := AddressSpace.api) "CustomEnumValueType"
                        (nth_id 1 2);
            custom_enum (API := AddressSpace.api) "CustomLocalizedTextType"
                        (nth_id 1 5)]
      /\ UsedDataTypes m' = 2
      /\ resolve m' (nth_id 1 2)
         = Some (custom_enum (API := AddressSpace.api) "CustomEnumValueType"
                             (nth_id 1 2))
      /\ resolve m' (nth_id 1 5)
         = Some (custom_enum (API := AddressSpace.api) "CustomLocalizedTextType"
                             (nth_id 1 5))
  | Aborted _ => false = false
  | Undefined _ => False
  end.
Proof.
  exact (main_outcome (API := AddressSpace.api) false true false
           (mkServer (mkServerConfig None) AddressSpace.initial) eq_refl).
Defined.

Lemma create_leaves_registry_witness :
  let m' := final_Mem (create (API := AddressSpace.api) false
                              (NewFolderNode 1) model_with_type) in
  DataTypes m' = DataTypes model_with_type
  /\ UsedDataTypes m' = UsedDataTypes model_with_type.
Proof.
  apply (create_leaves_registry (API := AddressSpace.api) false
           (NewFolderNode 1) model_with_type).
  reflexivity.
Defined.

Lemma creations_defined_witness :
  match creations (API := AddressSpace.api) false creations_of_main
                  model_start with
  | Returns _ m' =>
      serving m'
      /\ UsedDataTypes m'
         = UsedDataTypes model_start
           + Z.of_nat (length (List.filter is_registration creations_of_main))
  | Aborted _ => false = false
  | Undefined _ => False
  end.
Proof.
  apply (creations_defined (API := AddressSpace.api) false creations_of_main
                           model_start).
  - eexists. reflexivity.
  - reflexivity.
  - cbn. lia.
  - cbn. lia.
Defined.

Lemma addLocalizedText_enumStrings_witness :
  exists vs,
    Z.of_nat (length vs) = ENUMVALUES_LEN
    /\ (forall k, 0 <= k < ENUMVALUES_LEN ->
          vs !! Z.to_nat k
          = Some (VLocalizedText
                    (UA_LOCALIZEDTEXT_ALLOC "" ("EnumString " ++ decimal k))))
    /\ let s := mkServer (mkServerConfig None) AddressSpace.initial in
       let id := wrap_uint32 (FreeNodeId model_start + 1) in
       let vAttr :=
         mkVariableAttributes
           (UA_LOCALIZEDTEXT "" "EnumStrings")
           (mkVariant (Some UA_TYPES_LOCALIZEDTEXT) (VArray vs))
           (typeId (UA_TYPES (ServerAPI := AddressSpace.api)
                             UA_TYPES_LOCALIZEDTEXT))
           UA_VALUERANK_ONE_DIMENSION [0]
           UA_ACCESSLEVELMASK_READ UA_ACCESSLEVELMASK_READ in
       let r :=
         UA_Server_addVariableNode (ServerAPI := AddressSpace.api) s
           (UA_NODEID_NUMERIC (wrap_int16 1) id)
           (mkNodeId 0 UA_NS0ID_ENUMERATION)
           (UA_NODEID_NUMERIC 0 UA_NS0ID_HASPROPERTY)
           (UA_QUALIFIEDNAME 0 "EnumStrings")
           (UA_NODEID_NUMERIC 0 UA_NS0ID_PROPERTYTYPE) vAttr in
       let m' := set_server (Some r.2)
                   (log_allocated id (set_FreeNodeId id model_start)) in
       addLocalizedText (API := AddressSpace.api) false 1
                        (mkNodeId 0 UA_NS0ID_ENUMERATION) model_start
       = if false || (r.1 =? UA_STATUSCODE_GOOD)
         then Returns tt m' else Aborted m'.
Proof.
  apply (addLocalizedText_enumStrings (API := AddressSpace.api) false 1
           (mkNodeId 0 UA_NS0ID_ENUMERATION) model_start
           (mkServer (mkServerConfig None) AddressSpace.initial)).
  reflexivity.
Defined.
